(** * eVotingAPI/main.py: the real-time result distribution subsystem

    A shallow embedding of [ConnectionManager], [get_election_results],
    [websocket_results] and [broadcast_results].

    The ledger (a web3 contract object), the transport (Starlette
    websockets), pydantic's field validation and the wall clock are outside
    the file: they appear as records of functions that the embedded code
    calls.  Python exceptions are values of [exn]; a computation that may
    raise has type [res A].  [print] calls write to the process log only and
    are left out; where an [if] chooses between two log lines the embedding
    keeps the test and notes the lines in a comment. *)

From Stdlib Require Import ZArith String Ascii List Bool QArith Lia DecimalString.
Import ListNotations.

Local Open Scope string_scope.
Local Open Scope Z_scope.
Local Open Scope list_scope.

(** ** Python values and exceptions *)

(** The values a contract call hands back inside its tuples. *)
Inductive pyval : Type :=
| VInt (z : Z)
| VStr (s : string)
| VBool (b : bool).

(** The exception classes the file distinguishes.  [Error] stands for any
    other subclass of [Exception] (web3's reverts and panics, connection
    errors of the HTTP provider, ...); only its text is ever looked at. *)
Inductive exn : Type :=
| HTTPException (status_code : Z) (detail : string)
| WebSocketDisconnect
| ConnectionClosedError (reason : string)
| IndexError (msg : string)
| ValidationError (msg : string)
| Error (msg : string).

Inductive res (A : Type) : Type :=
| Ok (a : A)
| Raise (e : exn).
Arguments Ok {A} a.
Arguments Raise {A} e.

Definition bind {A B : Type} (m : res A) (k : A -> res B) : res B :=
  match m with
  | Ok a => k a
  | Raise e => Raise e
  end.

Notation "x <- m ;; k" := (bind m (fun x => k))
  (at level 61, m at next level, right associativity).

Definition is_ok {A : Type} (m : res A) : bool :=
  match m with
  | Ok _ => true
  | Raise _ => false
  end.

(** [str(n)] for a Python int. *)
Definition str_int (n : Z) : string := NilZero.string_of_int (Z.to_int n).

(** [str(e)].  Starlette's [HTTPException.__str__] is
    [f"{status_code}: {detail}"]; [WebSocketDisconnect] carries no text. *)
Definition str_exn (e : exn) : string :=
  match e with
  | HTTPException status_code detail => str_int status_code ++ ": " ++ detail
  | WebSocketDisconnect => ""
  | ConnectionClosedError reason => reason
  | IndexError msg => msg
  | ValidationError msg => msg
  | Error msg => msg
  end.

(** [needle in hay] on Python strings. *)
Fixpoint contains (needle hay : string) : bool :=
  if String.prefix needle hay then true
  else match hay with
       | EmptyString => false
       | String _ rest => contains needle rest
       end.

(** [range(lo, hi)]. *)
Definition py_range (lo hi : Z) : list Z :=
  map (fun k => lo + Z.of_nat k) (seq 0 (Z.to_nat (hi - lo))).

(** [t[i]] on a tuple, for the constant non-negative indices of the file. *)
Definition py_index (t : list pyval) (i : nat) : res pyval :=
  match nth_error t i with
  | Some v => Ok v
  | None => Raise (IndexError "tuple index out of range")
  end.

Definition py_len {A : Type} (l : list A) : Z := Z.of_nat (length l).

(** ** JSON payloads *)

#[warnings="-register-all"] Inductive json : Type :=
| JNull
| JBool (b : bool)
| JInt (z : Z)
| JStr (s : string)
| JList (items : list json)
| JDict (fields : list (string * json)).

Fixpoint assoc_get (k : string) (fields : list (string * json)) : option json :=
  match fields with
  | [] => None
  | (k', v) :: rest => if String.eqb k k' then Some v else assoc_get k rest
  end.

(** [payload[k]] when [payload] is a dict holding [k]. *)
Definition json_get (k : string) (payload : json) : option json :=
  match payload with
  | JDict fields => assoc_get k fields
  | _ => None
  end.

(** A payload of the shape [{error: ..., electionId: ...}]. *)
Definition is_error_payload (payload : json) : bool :=
  match json_get "error" payload with
  | Some _ => true
  | None => false
  end.

(** ** The registry: [Dict[WebSocket, bool]]

    A Python dict keeps its keys in insertion order and [broadcast] iterates
    it, so the registry is an association list with the dict's operations
    written out.  Every operation keeps the keys distinct
    ([connect_wf], [disconnect_wf] below). *)

(** A connection handle is an opaque identity. *)
Abbreviation WebSocket := nat (only parsing).

Definition registry : Type := list (WebSocket * bool).

Definition keys (d : registry) : list WebSocket := map fst d.

(** [k in d] *)
Definition dict_mem (k : WebSocket) (d : registry) : bool :=
  existsb (fun kv => Nat.eqb (fst kv) k) d.

(** [d.get(k)] *)
Fixpoint dict_get (k : WebSocket) (d : registry) : option bool :=
  match d with
  | [] => None
  | (k', v) :: rest => if Nat.eqb k' k then Some v else dict_get k rest
  end.

(** [d[k] = v]: an existing key keeps its position, a new one goes last. *)
Fixpoint dict_set (k : WebSocket) (v : bool) (d : registry) : registry :=
  match d with
  | [] => [(k, v)]
  | (k', v') :: rest =>
      if Nat.eqb k' k then (k', v) :: rest else (k', v') :: dict_set k v rest
  end.

(** [del d[k]], called only under [if k in d]. *)
Definition dict_del (k : WebSocket) (d : registry) : registry :=
  filter (fun kv => negb (Nat.eqb (fst kv) k)) d.

Definition dict_wf (d : registry) : Prop := NoDup (keys d).

(** ** Pydantic models *)

Definition datetime : Type := Z.

Record Election : Type := {
  id : Z;
  name : string;
  description : string;
  startTime : Z;
  endTime : Z;
  isActive : bool;
  creator : string;
  totalVotes : Z;
  candidateCount : Z;
  status : option string
}.

Record Candidate : Type := {
  cand_id : Z;
  cand_name : string;
  party : string;
  voteCount : Z;
  imageUrl : string
}.

Record ElectionResults : Type := {
  election : Election;
  candidates : list Candidate;
  lastUpdate : datetime
}.

(** What the libraries around the file decide: pydantic's coercion of a
    value to a field type (an error text on failure) and
    [datetime.isoformat]. *)
Record Runtime : Type := {
  validate_int : pyval -> string + Z;
  validate_str : pyval -> string + string;
  validate_bool : pyval -> string + bool;
  isoformat : datetime -> string
}.

Definition validated {A : Type} (r : string + A) : res A :=
  match r with
  | inr a => Ok a
  | inl msg => Raise (ValidationError msg)
  end.

Section Models.

Variable R : Runtime.

(** [Election(id=.., name=.., ..., status=..)]; [status] defaults to
    [None] when the call site leaves it out.  Fields are validated in
    declaration order and the first failure is the one reported. *)
Definition Election_init (a_id a_name a_description a_startTime a_endTime
                          a_isActive a_creator a_totalVotes a_candidateCount : pyval)
                         (a_status : option pyval) : res Election :=
  v_id <- validated (validate_int R a_id) ;;
  v_name <- validated (validate_str R a_name) ;;
  v_description <- validated (validate_str R a_description) ;;
  v_startTime <- validated (validate_int R a_startTime) ;;
  v_endTime <- validated (validate_int R a_endTime) ;;
  v_isActive <- validated (validate_bool R a_isActive) ;;
  v_creator <- validated (validate_str R a_creator) ;;
  v_totalVotes <- validated (validate_int R a_totalVotes) ;;
  v_candidateCount <- validated (validate_int R a_candidateCount) ;;
  v_status <- match a_status with
              | None => Ok None
              | Some s => s' <- validated (validate_str R s) ;; Ok (Some s')
              end ;;
  Ok {| id := v_id; name := v_name; description := v_description;
        startTime := v_startTime; endTime := v_endTime;
        isActive := v_isActive; creator := v_creator;
        totalVotes := v_totalVotes; candidateCount := v_candidateCount;
        status := v_status |}.

(** [Candidate(id=.., name=.., party=.., voteCount=.., imageUrl=..)] *)
Definition Candidate_init (a_id a_name a_party a_voteCount a_imageUrl : pyval)
  : res Candidate :=
  v_id <- validated (validate_int R a_id) ;;
  v_name <- validated (validate_str R a_name) ;;
  v_party <- validated (validate_str R a_party) ;;
  v_voteCount <- validated (validate_int R a_voteCount) ;;
  v_imageUrl <- validated (validate_str R a_imageUrl) ;;
  Ok {| cand_id := v_id; cand_name := v_name; party := v_party;
        voteCount := v_voteCount; imageUrl := v_imageUrl |}.

(** [model.dict()] *)
Definition json_opt_str (s : option string) : json :=
  match s with
  | Some s' => JStr s'
  | None => JNull
  end.

Definition Election_dict (e : Election) : json :=
  JDict [("id", JInt (id e));
         ("name", JStr (name e));
         ("description", JStr (description e));
         ("startTime", JInt (startTime e));
         ("endTime", JInt (endTime e));
         ("isActive", JBool (isActive e));
         ("creator", JStr (creator e));
         ("totalVotes", JInt (totalVotes e));
         ("candidateCount", JInt (candidateCount e));
         ("status", json_opt_str (status e))].

Definition Candidate_dict (c : Candidate) : json :=
  JDict [("id", JInt (cand_id c));
         ("name", JStr (cand_name c));
         ("party", JStr (party c));
         ("voteCount", JInt (voteCount c));
         ("imageUrl", JStr (imageUrl c))].

(** [results.dict()] followed by
    [results_dict['lastUpdate'] = results_dict['lastUpdate'].isoformat()]
    (the key is always there). *)
Definition results_dict (r : ElectionResults) : json :=
  JDict [("election", Election_dict (election r));
         ("candidates", JList (map Candidate_dict (candidates r)));
         ("lastUpdate", JStr (isoformat R (lastUpdate r)))].

End Models.

(** ** The ledger

    What a [contract.functions.<name>(...).call()] does: it returns, or it
    raises one of web3's or the provider's exceptions, of which the file
    only ever looks at the text. *)
Inductive call (A : Type) : Type :=
| Returns (a : A)
| Fails (text : string).
Arguments Returns {A} a.
Arguments Fails {A} text.

Definition run {A : Type} (r : call A) : res A :=
  match r with
  | Returns a => Ok a
  | Fails text => Raise (Error text)
  end.

(** One [Contract] value is the contract object as one synchronous stretch
    of the program sees it: each field is what the corresponding call does
    during that stretch. *)
Record Contract : Type := {
  electionCount : call Z;
  getElection : Z -> call (list pyval);
  getElectionStatus : Z -> call string;
  getElectionResults : Z -> call (list (list pyval))
}.

Section Fetcher.

Variable R : Runtime.

(** The [Election(...)] call of [get_election_results]: the argument
    expressions are evaluated first (an [IndexError] on a short tuple),
    then the model is validated; [status] is not passed. *)
Definition build_election (election_data : list pyval) : res Election :=
  a0 <- py_index election_data 0 ;;
  a1 <- py_index election_data 1 ;;
  a2 <- py_index election_data 2 ;;
  a3 <- py_index election_data 3 ;;
  a4 <- py_index election_data 4 ;;
  a5 <- py_index election_data 5 ;;
  a6 <- py_index election_data 6 ;;
  a7 <- (if 7 <? py_len election_data then py_index election_data 7 else Ok (VInt 0)) ;;
  a8 <- (if 8 <? py_len election_data then py_index election_data 8 else Ok (VInt 0)) ;;
  Election_init R a0 a1 a2 a3 a4 a5 a6 a7 a8 None.

(** The [Candidate(...)] call inside the [for] loop. *)
Definition build_candidate (candidate : list pyval) : res Candidate :=
  a0 <- py_index candidate 0 ;;
  a1 <- py_index candidate 1 ;;
  a2 <- py_index candidate 2 ;;
  a3 <- py_index candidate 3 ;;
  a4 <- (if 4 <? py_len candidate then py_index candidate 4 else Ok (VStr "")) ;;
  Candidate_init R a0 a1 a2 a3 a4.

(** [for candidate in results_data: candidates.append(Candidate(...))]
    inside the inner [try]: an exception stops the loop and leaves in
    [candidates] what was appended before it. *)
Fixpoint append_candidates (results_data : list (list pyval))
                           (candidates : list Candidate) : list Candidate :=
  match results_data with
  | [] => candidates
  | candidate :: rest =>
      match build_candidate candidate with
      | Ok c => append_candidates rest (candidates ++ [c])
      | Raise _ => candidates
      end
  end.

(** The inner [try ... except Exception as e] around the candidate read.
    Both handler branches only print. *)
Definition read_candidates (c : Contract) (election_id : Z) : list Candidate :=
  match getElectionResults c election_id with
  | Returns results_data => append_candidates results_data []
  | Fails text =>
      if contains "underflow or overflow" (str_exn (Error text))
      then [] (* print "No candidates for election ..." *)
      else [] (* print "Error getting candidates: ..." *)
  end.

(** The fallback model built in the outer handler. *)
Definition fallback_results (now : datetime) (election_id : Z) : ElectionResults :=
  {| election := {| id := election_id; name := "Election"; description := "";
                    startTime := 0; endTime := 0; isActive := false;
                    creator := ""; totalVotes := 0; candidateCount := 0;
                    status := None |};
     candidates := [];
     lastUpdate := now |}.

(** The body of the outer [try]. *)
Definition get_election_results_body (contract : option Contract) (now : datetime)
                                     (election_id : Z) : res ElectionResults :=
  match contract with
  | None => Raise (HTTPException 503 "Smart contract not loaded")
  | Some c =>
      election_count <- run (electionCount c) ;;
      if (election_id <? 1) || (election_id >? election_count)
      then Raise (HTTPException 404
                    ("Election " ++ str_int election_id ++ " does not exist"))
      else
        election_data <- run (getElection c election_id) ;;
        let candidates := read_candidates c election_id in
        election <- build_election election_data ;;
        Ok {| election := election; candidates := candidates; lastUpdate := now |}
  end.

(** [get_election_results]: [except HTTPException: raise], then
    [except Exception as e] with its test on [str(e)]. *)
Definition get_election_results (contract : option Contract) (now : datetime)
                                (election_id : Z) : res ElectionResults :=
  match get_election_results_body contract now election_id with
  | Ok r => Ok r
  | Raise (HTTPException status_code detail) =>
      Raise (HTTPException status_code detail)
  | Raise e =>
      if contains "underflow or overflow" (str_exn e)
      then Ok (fallback_results now election_id)
      else Raise (HTTPException 500 (str_exn e))
  end.

End Fetcher.

(** ** The world around one task

    [World] is what one stretch of a task meets: the global [contract]
    ([None] when loading failed) with the call results of that moment, the
    clock, what the transport does with [accept] and [send_json], and
    [others]: what the other tasks do to the registry while this task is
    suspended in [asyncio.sleep].  What they do while [broadcast] is
    suspended in a send is an argument of [broadcast]. *)
Record World : Type := {
  contract : option Contract;
  now : datetime;
  accept : WebSocket -> res unit;
  send_json : WebSocket -> json -> res unit;
  others : registry -> registry
}.

Inductive event : Type :=
| EvFetch (election_id : Z)
| EvSend (ws : WebSocket) (message : json) (ok : bool)
| EvSleep (seconds : Q).

Definition trace : Type := list event.

(** ** ConnectionManager *)

(** [connect]: [await websocket.accept()], then
    [self.active_connections[websocket] = True]. *)
Definition connect (w : World) (websocket : WebSocket) (active_connections : registry)
  : res registry :=
  _ <- accept w websocket ;;
  Ok (dict_set websocket true active_connections).

Definition disconnect (websocket : WebSocket) (active_connections : registry) : registry :=
  if dict_mem websocket active_connections
  then dict_del websocket active_connections
  else active_connections.

(** [self.active_connections[websocket]] as a truth value, under
    [websocket in self.active_connections]. *)
Definition flag (websocket : WebSocket) (active_connections : registry) : bool :=
  match dict_get websocket active_connections with
  | Some b => b
  | None => false
  end.

Definition send_personal_message (w : World) (message : json) (websocket : WebSocket)
                                 (active_connections : registry) : registry * trace :=
  if dict_mem websocket active_connections && flag websocket active_connections
  then
    match send_json w websocket message with
    | Ok _ => (active_connections, [EvSend websocket message true])
    | Raise _ => (disconnect websocket active_connections,
                  [EvSend websocket message false])
    end
  else (active_connections, []).

(** The first loop of [broadcast], [for websocket in self.active_connections]
    with [await websocket.send_json(message)] in its body.  The loop runs
    over the dict itself, not over a copy of its keys, and the task is
    suspended in every send: [meanwhile] is what the other tasks (sessions
    that connect or end) do to the registry during one such suspension.

    The iterator is CPython's: it keeps the [size] the dict had when the
    loop began and its position among the entries ([remaining] are still to
    come).  Every step first compares [size] with the present size of the
    dict and raises [RuntimeError] when they differ; [broadcast] has no
    handler around the [for], so the handles not yet reached get no write
    and the second loop does not run.  Otherwise the step takes the entry
    at its position in the dict as it is now.

    The result is the registry as the loop leaves it, the handles whose
    send raised in the order they were collected ([None] when the iterator
    raised) and the sends in order.

    The registry lists the live entries in insertion order.  CPython's
    table also keeps the slot of a removed entry until the table is rebuilt,
    so after removals and insertions that leave the size as it was the
    entry CPython finds at a position can be another than the one found
    here; the embedding is exact when the size changed and when the keys
    are as they were. *)
Fixpoint broadcast_sends (w : World) (meanwhile : registry -> registry) (message : json)
                         (size remaining : nat) (active_connections : registry)
  : registry * option (list WebSocket) * trace :=
  if negb (length active_connections =? size)%nat
  then (active_connections, None, [])
  else
    match remaining with
    | O => (active_connections, Some [], [])
    | S remaining' =>
        match nth_error (keys active_connections) (size - remaining)%nat with
        | None => (active_connections, Some [], [])
        | Some websocket =>
            let '(d, disconnected, tr) :=
              broadcast_sends w meanwhile message size remaining'
                              (meanwhile active_connections) in
            match send_json w websocket message with
            | Ok _ => (d, disconnected, EvSend websocket message true :: tr)
            | Raise _ => (d, option_map (cons websocket) disconnected,
                          EvSend websocket message false :: tr)
            end
        end
    end.

(** [for ws in disconnected: self.disconnect(ws)] *)
Definition prune (disconnected : list WebSocket) (active_connections : registry) : registry :=
  fold_left (fun d ws => disconnect ws d) disconnected active_connections.

(** [broadcast]: the registry it leaves, its sends, and whether it returned
    or raised.  The second loop has no [await] in it. *)
Definition broadcast (w : World) (meanwhile : registry -> registry) (message : json)
                     (active_connections : registry) : registry * trace * res unit :=
  let size := length active_connections in
  match broadcast_sends w meanwhile message size size active_connections with
  | (d, Some disconnected, tr) => (prune disconnected d, tr, Ok tt)
  | (d, None, tr) =>
      (d, tr, Raise (Error "dictionary changed size during iteration"))
  end.

(** ** websocket_results: the per-connection session *)

Inductive flow : Type :=
| Next
| Break.

(** A session or the broadcaster after its schedule: still in its loop
    ([Running]), out of the loop and past [finally] ([Exited]), or ended by
    an exception raised before the [try] ([Propagated]). *)
Inductive outcome : Type :=
| Running (active_connections : registry) (tr : trace)
| Exited (active_connections : registry) (tr : trace)
| Propagated (e : exn).

Definition after (tr : trace) (o : outcome) : outcome :=
  match o with
  | Running d tr' => Running d (tr ++ tr')
  | Exited d tr' => Exited d (tr ++ tr')
  | Propagated e => Propagated e
  end.

Section Session.

Variable R : Runtime.

(** The [empty_result] dict of the handler. *)
Definition empty_result (now : datetime) (election_id : Z) : json :=
  JDict [("election",
          JDict [("id", JInt election_id);
                 ("name", JStr "Loading...");
                 ("description", JStr "");
                 ("startTime", JInt 0);
                 ("endTime", JInt 0);
                 ("isActive", JBool false);
                 ("creator", JStr "");
                 ("totalVotes", JInt 0);
                 ("candidateCount", JInt 0)]);
         ("candidates", JList []);
         ("lastUpdate", JStr (isoformat R now));
         ("info", JStr "No candidates registered yet")].

Definition not_found_msg (election_id : Z) : json :=
  JDict [("error", JStr ("Election " ++ str_int election_id ++ " does not exist"));
         ("electionId", JInt election_id)].

Definition not_loaded_msg (election_id : Z) : json :=
  JDict [("error", JStr "Contract not loaded");
         ("electionId", JInt election_id)].

(** The [try] inside [while connection_alive], with its three [except]
    clauses, which all set [connection_alive = False] and [break].  The
    sends go through [send_personal_message], which raises nothing, so the
    only call of the block that can reach those clauses is the read of
    [electionCount]. *)
Definition session_try (w : World) (websocket : WebSocket) (election_id : Z)
                       (active_connections : registry) : flow * registry * trace :=
  if negb (dict_mem websocket active_connections)
  then (Break, active_connections, [])
  else
    match contract w with
    | Some c =>
        match electionCount c with
        | Fails _ => (Break, active_connections, [])
        | Returns election_count =>
            if (election_id >? 0) && (election_id <=? election_count)
            then
              let '(d, tr) :=
                match get_election_results R (contract w) (now w) election_id with
                | Ok results =>
                    send_personal_message w (results_dict R results)
                                          websocket active_connections
                | Raise e =>
                    if contains "underflow or overflow" (str_exn e)
                    then send_personal_message w (empty_result (now w) election_id)
                                               websocket active_connections
                    else (active_connections, [])
                end in
              (Next, d, EvFetch election_id :: tr)
            else
              let '(d, tr) := send_personal_message w (not_found_msg election_id)
                                                    websocket active_connections in
              (Break, d, tr)
        end
    | None =>
        let '(d, tr) := send_personal_message w (not_loaded_msg election_id)
                                              websocket active_connections in
        (Next, d, tr)
    end.

(** [while connection_alive: ...; await asyncio.sleep(2.5)], one [World] per
    iteration; an empty schedule leaves the session in its loop. *)
Fixpoint session_loop (schedule : list World) (websocket : WebSocket) (election_id : Z)
                      (active_connections : registry) : outcome :=
  match schedule with
  | [] => Running active_connections []
  | w :: rest =>
      match session_try w websocket election_id active_connections with
      | (Break, d, tr) => Exited d tr
      | (Next, d, tr) =>
          after (tr ++ [EvSleep 2.5%Q])
                (session_loop rest websocket election_id (others w d))
      end
  end.

(** [websocket_results]: [await manager.connect(websocket)] in the world
    [w0], the loop, and [finally: manager.disconnect(websocket)]. *)
Definition websocket_results (w0 : World) (schedule : list World)
                             (websocket : WebSocket) (election_id : Z)
                             (active_connections : registry) : outcome :=
  match connect w0 websocket active_connections with
  | Raise e => Propagated e
  | Ok d0 =>
      match session_loop schedule websocket election_id d0 with
      | Exited d tr => Exited (disconnect websocket d) tr
      | o => o
      end
  end.

(** ** broadcast_results: the background cycle *)

(** One pass of the [for election_id in range(...)] body: the fetch, and the
    broadcast when the fetch returned.  The handler of the inner [try]
    catches what the fetch raises and what [broadcast] raises alike, and
    only chooses whether to print. *)
Definition broadcast_one (w : World) (meanwhile : registry -> registry) (election_id : Z)
                         (active_connections : registry) : registry * trace :=
  match get_election_results R (contract w) (now w) election_id with
  | Ok results =>
      let '(d, tr, _) := broadcast w meanwhile
                                   (JDict [("electionId", JInt election_id);
                                           ("results", results_dict R results)])
                                   active_connections in
      (d, EvFetch election_id :: tr)
  | Raise _ => (active_connections, [EvFetch election_id])
  end.

Fixpoint broadcast_elections (at_election : Z -> World) (meanwhile : registry -> registry)
                             (ids : list Z) (active_connections : registry)
  : registry * trace :=
  match ids with
  | [] => (active_connections, [])
  | election_id :: rest =>
      let '(d, tr) := broadcast_one (at_election election_id) meanwhile election_id
                                    active_connections in
      let '(d', tr') := broadcast_elections at_election meanwhile rest d in
      (d', tr ++ tr')
  end.

(** What one cycle meets: the world when it starts (the [contract] test and
    the read of [electionCount]) and the world when each election is
    handled.  [others (at_start cy)] is what the other tasks do to the
    registry at each suspension of the cycle: in every send of its
    broadcasts and in its sleep. *)
Record Cycle : Type := {
  at_start : World;
  at_election : Z -> World
}.

(** One iteration of [while True] in [broadcast_results]. *)
Definition broadcast_cycle (cy : Cycle) (active_connections : registry)
  : registry * trace :=
  match contract (at_start cy) with
  | None => (others (at_start cy) active_connections, [EvSleep 5%Q])
  | Some c =>
      let '(d, tr) :=
        match electionCount c with
        | Returns election_count =>
            if election_count >? 0
            then broadcast_elections (at_election cy) (others (at_start cy))
                                     (py_range 1 (Z.min (election_count + 1) 10))
                                     active_connections
            else (active_connections, [])
        | Fails _ => (active_connections, [])
        end in
      (others (at_start cy) d, tr ++ [EvSleep 3%Q])
  end.

Fixpoint broadcast_results (schedule : list Cycle) (active_connections : registry)
  : outcome :=
  match schedule with
  | [] => Running active_connections []
  | cy :: rest =>
      let '(d, tr) := broadcast_cycle cy active_connections in
      after tr (broadcast_results rest d)
  end.

End Session.

(** ** Reading traces *)

Definition fetched (tr : trace) : list Z :=
  flat_map (fun e => match e with EvFetch i => [i] | _ => [] end) tr.

Definition attempts (tr : trace) : list (WebSocket * json) :=
  flat_map (fun e => match e with EvSend ws m _ => [(ws, m)] | _ => [] end) tr.

Definition delivered (tr : trace) : list (WebSocket * json) :=
  flat_map (fun e => match e with EvSend ws m true => [(ws, m)] | _ => [] end) tr.



(** The [electionId] tag of a broadcast payload. *)
Definition tagged_in (lo hi : Z) (message : json) : Prop :=
  exists i, json_get "electionId" message = Some (JInt i) /\ lo <= i <= hi.

(** [payload[k1][k2]] *)
Definition json_get2 (k1 k2 : string) (payload : json) : option json :=
  match json_get k1 payload with
  | Some inner => json_get k2 inner
  | None => None
  end.

Definition trace_of (o : outcome) : trace :=
  match o with
  | Running _ tr => tr
  | Exited _ tr => tr
  | Propagated _ => []
  end.

(** A computation that does not raise an [HTTPException]. *)
Definition plain {A : Type} (m : res A) : Prop :=
  match m with
  | Raise (HTTPException _ _) => False
  | _ => True
  end.

(** ** Conditions on a world *)

(** A world in which the session of [websocket] on [election_id] meets
    neither a write failure nor a disconnect nor the end of its election:
    the contract is loaded and counts [election_id] among its elections,
    the transport takes every write to the handle, and the other tasks
    leave the handle's registry entry as it is. *)
Definition undisturbed (websocket : WebSocket) (election_id : Z) (w : World) : Prop :=
  (exists c election_count,
      contract w = Some c /\ electionCount c = Returns election_count
      /\ 1 <= election_id <= election_count)
  /\ (forall message, is_ok (send_json w websocket message) = true)
  /\ (forall d, dict_get websocket (others w d) = dict_get websocket d).

(** A world in which election [election_id] exists with the record that
    builds [e] and its candidate read raises the empty-collection fault. *)
Definition awaiting_candidates (R : Runtime) (election_id : Z) (w : World)
                               (e : Election) : Prop :=
  exists c election_data cause,
    contract w = Some c
    /\ getElection c election_id = Returns election_data
    /\ build_election R election_data = Ok e
    /\ getElectionResults c election_id = Fails cause
    /\ contains "underflow or overflow" cause = true.

(** What a session sends for a snapshot that holds the election [e] and no
    candidates, fetched in the world [w]. *)
Definition empty_snapshot (R : Runtime) (w : World) (e : Election) : json :=
  results_dict R {| election := e; candidates := []; lastUpdate := now w |}.

(** ** Sample inputs *)

(** A runtime that accepts a value for a field exactly when it already has
    the field's type. *)
Definition sample_runtime : Runtime :=
  {| validate_int := fun v => match v with
                              | VInt z => inr z
                              | _ => inl "value is not a valid integer"
                              end;
     validate_str := fun v => match v with
                              | VStr s => inr s
                              | _ => inl "str type expected"
                              end;
     validate_bool := fun v => match v with
                               | VBool b => inr b
                               | _ => inl "value could not be parsed to a boolean"
                               end;
     isoformat := fun _ => "2024-05-01T12:00:00" |}.

Definition sample_election_data (election_id : Z) : list pyval :=
  [VInt election_id; VStr "Student council"; VStr "Spring term";
   VInt 1714521600; VInt 1714608000; VBool true; VStr "0xA11CE";
   VInt 0; VInt 0].

Definition sample_election (election_id : Z) : Election :=
  {| id := election_id; name := "Student council"; description := "Spring term";
     startTime := 1714521600; endTime := 1714608000; isActive := true;
     creator := "0xA11CE"; totalVotes := 0; candidateCount := 0;
     status := None |}.

(** The panic an empty candidate array produces in the contract. *)
Definition underflow_panic : string :=
  "execution reverted: Panic error 0x11: Arithmetic operation results in underflow or overflow.".

(** A failure of the candidate read that is not the empty-array panic. *)
Definition revert_error : string :=
  "execution reverted: VM Exception while processing transaction: revert".

(** A ledger with [count] elections whose candidate read gives [results]. *)
Definition sample_ledger (count : Z) (results : call (list (list pyval))) : Contract :=
  {| electionCount := Returns count;
     getElection := fun i => Returns (sample_election_data i);
     getElectionStatus := fun _ => Returns "Active";
     getElectionResults := fun _ => results |}.

Definition sample_results_data : list (list pyval) :=
  [[VInt 1; VStr "Ada"; VStr "Blue"; VInt 3; VStr ""];
   [VInt 2; VStr "Grace"; VStr "Green"; VInt 5; VStr ""]].

Definition sample_candidates : list Candidate :=
  [{| cand_id := 1; cand_name := "Ada"; party := "Blue"; voteCount := 3;
      imageUrl := "" |};
   {| cand_id := 2; cand_name := "Grace"; party := "Green"; voteCount := 5;
      imageUrl := "" |}].

(** A quiet world: the transport accepts every connection, a send fails
    exactly for the handles in [broken], no other task touches the
    registry. *)
Definition sample_world (c : option Contract) (broken : list WebSocket) : World :=
  {| contract := c;
     now := 1714564800;
     accept := fun _ => Ok tt;
     send_json := fun ws _ => if existsb (Nat.eqb ws) broken
                              then Raise (ConnectionClosedError "no close frame received or sent")
                              else Ok tt;
     others := fun d => d |}.

(** The same world with another task that unregisters [websocket] while the
    session sleeps, as a failed broadcast write does. *)
Definition dropped_by_others (websocket : WebSocket) (w : World) : World :=
  {| contract := contract w;
     now := now w;
     accept := accept w;
     send_json := send_json w;
     others := fun d => disconnect websocket d |}.

(** A ledger whose node does not answer. *)
Definition silent_ledger : Contract :=
  {| electionCount := Fails revert_error;
     getElection := fun _ => Fails revert_error;
     getElectionStatus := fun _ => Fails revert_error;
     getElectionResults := fun _ => Fails revert_error |}.

Definition sample_cycle (c : option Contract) (broken : list WebSocket) : Cycle :=
  {| at_start := sample_world c broken;
     at_election := fun _ => sample_world c broken |}.

(** * The request/response endpoints

    The endpoints beside the result feed.  They reach the same contract
    object through functions the feed does not call ([VotingContract]) and
    the node through [w3] ([Web3]). *)

(** The other functions of the contract object.  A [build_<name>] field is
    [contract.functions.<name>(...).build_transaction(params)]: its last
    argument is the params dict, its result the transaction dict. *)
Record VotingContract : Type := {
  isAdmin : string -> call bool;
  isVoterEligible : Z -> string -> call bool;
  hasVoterVoted : Z -> string -> call bool;
  getAllCandidates : Z -> call (list (list pyval));
  build_createElection :
    string -> string -> Z -> Z -> list (string * json) -> call (list (string * json));
  build_addCandidate :
    Z -> string -> string -> option string -> list (string * json)
    -> call (list (string * json));
  build_vote : Z -> Z -> list (string * json) -> call (list (string * json))
}.

(** The [w3] object: [to_checksum_address], [eth.get_transaction_count],
    the [eth.accounts] property and
    [eth.account.recover_message(encode_defunct(text=message), signature=...)]
    applied to the message text and the signature. *)
Record Web3 : Type := {
  to_checksum_address : string -> call string;
  get_transaction_count : string -> call Z;
  accounts : call (list string);
  recover_message : string -> string -> call string
}.

Record LoginRequest : Type := {
  lr_address : string;
  lr_signature : string;
  lr_message : string
}.

Record LoginResponse : Type := {
  resp_address : string;
  resp_isAdmin : bool;
  authenticated : bool
}.

Record ElectionCreate : Type := {
  ec_name : string;
  ec_description : string;
  ec_startTime : Z;
  ec_endTime : Z;
  ec_senderAddress : string
}.

Record CandidateCreate : Type := {
  cc_electionId : Z;
  cc_name : string;
  cc_party : string;
  cc_imageUrl : option string;
  cc_senderAddress : string
}.

Record VoteRequest : Type := {
  vr_electionId : Z;
  vr_candidateId : Z;
  vr_senderAddress : string
}.

(** [contract.functions]: an [AttributeError] when [contract] is [None]. *)
Definition functions {C : Type} (contract : option C) : res C :=
  match contract with
  | Some c => Ok c
  | None => Raise (Error "'NoneType' object has no attribute 'functions'")
  end.

(** [except Exception as e: raise HTTPException(status_code=500, detail=str(e))]
    as the only handler: it also takes the [HTTPException]s of the body. *)
Definition wrap_500 {A : Type} (body : res A) : res A :=
  match body with
  | Ok a => Ok a
  | Raise e => Raise (HTTPException 500 (str_exn e))
  end.

(** [except HTTPException: raise] before that handler. *)
Definition wrap_500_keep_http {A : Type} (body : res A) : res A :=
  match body with
  | Ok a => Ok a
  | Raise (HTTPException status_code detail) => Raise (HTTPException status_code detail)
  | Raise e => Raise (HTTPException 500 (str_exn e))
  end.

(** [k in d] and [del d[k]] on a dict with string keys. *)
Definition assoc_mem (k : string) (fields : list (string * json)) : bool :=
  existsb (fun kv => String.eqb (fst kv) k) fields.

Definition assoc_del (k : string) (fields : list (string * json)) : list (string * json) :=
  filter (fun kv => negb (String.eqb (fst kv) k)) fields.

(** [if 'chainId' in transaction: del transaction['chainId']] *)
Definition strip_chain_id (transaction : list (string * json)) : list (string * json) :=
  if assoc_mem "chainId" transaction
  then assoc_del "chainId" transaction
  else transaction.

(** The params dict of every [build_transaction] call;
    [w3.to_wei('20', 'gwei')] is 20 * 10^9. *)
Definition tx_params (sender_address : string) (nonce : Z) : list (string * json) :=
  [("from", JStr sender_address);
   ("nonce", JInt nonce);
   ("gas", JInt 3000000);
   ("gasPrice", JInt 20000000000)].

Definition prepared (transaction : list (string * json)) (message : string) : json :=
  JDict [("transaction", JDict (strip_chain_id transaction));
         ("message", JStr message)].

Section Endpoints.

Variable R : Runtime.

(** [str.lower]. *)
Variable lower : string -> string.

Variable w3 : Web3.

(** *** Elections *)

(** The reads and the [Election(...)] call shared by [get_elections] and
    [get_election]: every index is taken unguarded and [status] is the
    label read from the ledger. *)
Definition election_with_status (c : Contract) (i : Z) : res Election :=
  election_data <- run (getElection c i) ;;
  status_label <- run (getElectionStatus c i) ;;
  a0 <- py_index election_data 0 ;;
  a1 <- py_index election_data 1 ;;
  a2 <- py_index election_data 2 ;;
  a3 <- py_index election_data 3 ;;
  a4 <- py_index election_data 4 ;;
  a5 <- py_index election_data 5 ;;
  a6 <- py_index election_data 6 ;;
  a7 <- py_index election_data 7 ;;
  a8 <- py_index election_data 8 ;;
  Election_init R a0 a1 a2 a3 a4 a5 a6 a7 a8 (Some (VStr status_label)).

(** The [for i in range(1, election_count + 1)] loop of [get_elections]:
    [try ... elections.append(...) except Exception: continue]. *)
Fixpoint collect_elections (c : Contract) (ids : list Z) (elections : list Election)
  : list Election :=
  match ids with
  | [] => elections
  | i :: rest =>
      match election_with_status c i with
      | Ok e => collect_elections c rest (elections ++ [e])
      | Raise _ => collect_elections c rest elections
      end
  end.

(** [get_elections]: the outer handler returns [[]]; past the count read
    nothing of the body can reach it. *)
Definition get_elections (contract : option Contract) : list Election :=
  match contract with
  | None => []
  | Some c =>
      match electionCount c with
      | Fails _ => []
      | Returns election_count =>
          collect_elections c (py_range 1 (election_count + 1)) []
      end
  end.

Definition get_election (contract : option Contract) (election_id : Z) : res Election :=
  wrap_500 (c <- functions contract ;; election_with_status c election_id).

(** *** Candidates *)

(** The [Candidate(...)] call of [get_candidates]: [candidate[4]] is taken
    unguarded. *)
Definition build_candidate_strict (candidate : list pyval) : res Candidate :=
  a0 <- py_index candidate 0 ;;
  a1 <- py_index candidate 1 ;;
  a2 <- py_index candidate 2 ;;
  a3 <- py_index candidate 3 ;;
  a4 <- py_index candidate 4 ;;
  Candidate_init R a0 a1 a2 a3 a4.

(** [for candidate in candidates_data: candidates.append(Candidate(...))]
    with no handler of its own. *)
Fixpoint all_candidates (candidates_data : list (list pyval)) (candidates : list Candidate)
  : res (list Candidate) :=
  match candidates_data with
  | [] => Ok candidates
  | candidate :: rest =>
      c <- build_candidate_strict candidate ;;
      all_candidates rest (candidates ++ [c])
  end.

Definition get_candidates (contract : option VotingContract) (election_id : Z)
  : res (list Candidate) :=
  wrap_500 (c <- functions contract ;;
            candidates_data <- run (getAllCandidates c election_id) ;;
            all_candidates candidates_data []).

(** *** Voters and votes *)

Definition check_voter_eligibility (contract : option VotingContract)
                                   (election_id : Z) (voter_address : string) : res json :=
  wrap_500 (voter_address_checksum <- run (to_checksum_address w3 voter_address) ;;
            c <- functions contract ;;
            is_eligible <- run (isVoterEligible c election_id voter_address_checksum) ;;
            has_voted <- run (hasVoterVoted c election_id voter_address_checksum) ;;
            Ok (JDict [("eligible", JBool is_eligible);
                       ("hasVoted", JBool has_voted);
                       ("canVote", JBool (is_eligible && negb has_voted))])).

Definition cast_vote (contract : option VotingContract) (vote : VoteRequest) : res json :=
  wrap_500 (sender_address <- run (to_checksum_address w3 (vr_senderAddress vote)) ;;
            c <- functions contract ;;
            is_eligible <- run (isVoterEligible c (vr_electionId vote) sender_address) ;;
            if negb is_eligible
            then Raise (HTTPException 403 "You are not eligible to vote in this election")
            else
              has_voted <- run (hasVoterVoted c (vr_electionId vote) sender_address) ;;
              if has_voted
              then Raise (HTTPException 400 "You have already voted in this election")
              else
                nonce <- run (get_transaction_count w3 sender_address) ;;
                transaction <- run (build_vote c (vr_electionId vote) (vr_candidateId vote)
                                               (tx_params sender_address nonce)) ;;
                Ok (prepared transaction "Vote transaction prepared successfully")).

(** *** Admin actions *)

(** [address.lower() == w3.eth.accounts[0].lower() if w3.eth.accounts else False] *)
Definition is_first_account (address : string) : res bool :=
  accs <- run (accounts w3) ;;
  match accs with
  | [] => Ok false
  | first :: _ => Ok (String.eqb (lower address) (lower first))
  end.

Definition add_candidate (contract : option VotingContract) (candidate : CandidateCreate)
  : res json :=
  wrap_500 (sender_address <- run (to_checksum_address w3 (cc_senderAddress candidate)) ;;
            c <- functions contract ;;
            is_admin <- run (isAdmin c sender_address) ;;
            if negb is_admin
            then Raise (HTTPException 403 "Only admins can add candidates")
            else
              nonce <- run (get_transaction_count w3 sender_address) ;;
              transaction <- run (build_addCandidate c (cc_electionId candidate)
                                                     (cc_name candidate) (cc_party candidate)
                                                     (cc_imageUrl candidate)
                                                     (tx_params sender_address nonce)) ;;
              Ok (prepared transaction "Transaction prepared successfully")).

Definition create_election (contract : option VotingContract) (election : ElectionCreate)
  : res json :=
  wrap_500_keep_http
    (match contract with
     | None => Raise (HTTPException 503 "Smart contract not loaded")
     | Some c =>
         sender_address <- run (to_checksum_address w3 (ec_senderAddress election)) ;;
         is_admin <- match isAdmin c sender_address with
                     | Returns b => Ok b
                     | Fails _ => is_first_account sender_address
                     end ;;
         if negb is_admin
         then Raise (HTTPException 403 "Only admins can create elections")
         else
           nonce <- run (get_transaction_count w3 sender_address) ;;
           transaction <- run (build_createElection c (ec_name election)
                                                    (ec_description election)
                                                    (ec_startTime election)
                                                    (ec_endTime election)
                                                    (tx_params sender_address nonce)) ;;
           Ok (prepared transaction "Transaction prepared successfully")
     end).

(** *** Login *)

(** [if signature.startswith('0x'): signature = signature[2:]], then
    ['0x' + signature]. *)
Definition signature_hex (signature : string) : string :=
  "0x" ++ (if String.prefix "0x" signature
           then String.substring 2 (String.length signature - 2) signature
           else signature).

(** [verify_signature]: any exception of the recovery gives [False]. *)
Definition verify_signature (address message signature : string) : bool :=
  match recover_message w3 message (signature_hex signature) with
  | Returns recovered_address => String.eqb (lower recovered_address) (lower address)
  | Fails _ => false
  end.

Definition login (contract : option VotingContract) (request : LoginRequest)
  : res LoginResponse :=
  match
    (address <- run (to_checksum_address w3 (lr_address request)) ;;
     if negb (verify_signature address (lr_message request) (lr_signature request))
     then Raise (HTTPException 401 "Invalid signature")
     else
       is_admin <- match contract with
                   | None => is_first_account address
                   | Some c =>
                       match isAdmin c address with
                       | Returns b => Ok b
                       | Fails _ => is_first_account address
                       end
                   end ;;
       Ok {| resp_address := address; resp_isAdmin := is_admin; authenticated := true |})
  with
  | Ok response => Ok response
  | Raise (HTTPException status_code detail) => Raise (HTTPException status_code detail)
  | Raise e => Raise (HTTPException 500 ("Login failed: " ++ str_exn e))
  end.

End Endpoints.

(** An election model with its [status] taken out. *)
Definition without_status (e : Election) : Election :=
  {| id := id e; name := name e; description := description e;
     startTime := startTime e; endTime := endTime e; isActive := isActive e;
     creator := creator e; totalVotes := totalVotes e;
     candidateCount := candidateCount e; status := None |}.

(** ** Sample inputs for the endpoints *)

Definition ascii_lower (c : ascii) : ascii :=
  if (Nat.leb 65 (nat_of_ascii c) && Nat.leb (nat_of_ascii c) 90)%bool
  then ascii_of_nat (nat_of_ascii c + 32)
  else c.

(** [str.lower] on ASCII text. *)
Fixpoint sample_lower (s : string) : string :=
  match s with
  | EmptyString => EmptyString
  | String c rest => String (ascii_lower c) (sample_lower rest)
  end.

(** A node with one account, on which the signature ["0xdeadbeef"] recovers
    the address ["0xB0B"] and any other signature is malformed. *)
Definition sample_w3 : Web3 :=
  {| to_checksum_address := fun a => if String.prefix "0x" a
                                     then Returns a
                                     else Fails "invalid address";
     get_transaction_count := fun _ => Returns 7;
     accounts := Returns ["0xA11CE"];
     recover_message := fun _ signature =>
                          if String.eqb signature "0xdeadbeef"
                          then Returns "0xB0B"
                          else Fails "Unexpected recoverable signature length" |}.

(** A contract whose admin is ["0xA11CE"], whose only eligible voter is
    ["0xB0B"], and whose built transactions carry a [chainId]. *)
Definition sample_voting (voted : bool) : VotingContract :=
  {| isAdmin := fun a => Returns (String.eqb a "0xA11CE");
     isVoterEligible := fun _ a => Returns (String.eqb a "0xB0B");
     hasVoterVoted := fun _ _ => Returns voted;
     getAllCandidates := fun _ => Returns sample_results_data;
     build_createElection := fun _ _ _ _ params =>
                               Returns (("chainId", JInt 1337) :: ("to", JStr "0xC0DE") :: params);
     build_addCandidate := fun _ _ _ _ params =>
                             Returns (("chainId", JInt 1337) :: ("to", JStr "0xC0DE") :: params);
     build_vote := fun _ _ params =>
                     Returns (("chainId", JInt 1337) :: ("to", JStr "0xC0DE") :: params) |}.

(** The same contract with a node that no longer answers [isAdmin]. *)
Definition sample_voting_admin_down : VotingContract :=
  {| isAdmin := fun _ => Fails revert_error;
     isVoterEligible := isVoterEligible (sample_voting false);
     hasVoterVoted := hasVoterVoted (sample_voting false);
     getAllCandidates := getAllCandidates (sample_voting false);
     build_createElection := build_createElection (sample_voting false);
     build_addCandidate := build_addCandidate (sample_voting false);
     build_vote := build_vote (sample_voting false) |}.

(** A ledger of [count] elections in which the record of election 2 is cut
    short. *)
Definition sample_ledger_short_second (count : Z) : Contract :=
  {| electionCount := Returns count;
     getElection := fun i => if i =? 2
                             then Returns [VInt 2; VStr "Cut short"]
                             else Returns (sample_election_data i);
     getElectionStatus := fun _ => Returns "Active";
     getElectionResults := fun _ => Returns [] |}.

(** A ledger whose count read raises [text]. *)
Definition sample_ledger_count_fails (text : string) : Contract :=
  {| electionCount := Fails text;
     getElection := fun i => Returns (sample_election_data i);
     getElectionStatus := fun _ => Returns "Active";
     getElectionResults := fun _ => Returns [] |}.

(** A ledger of [count] elections whose election read raises [text]. *)
Definition sample_ledger_election_fails (count : Z) (text : string) : Contract :=
  {| electionCount := Returns count;
     getElection := fun _ => Fails text;
     getElectionStatus := fun _ => Returns "Active";
     getElectionResults := fun _ => Returns [] |}.

(** * Properties *)

(** ** The registry *)

Lemma dict_mem_In (k : WebSocket) (d : registry) :
  dict_mem k d = true <-> In k (keys d).
Proof.
  unfold dict_mem, keys. rewrite existsb_exists, in_map_iff.
  split.
  - intros [kv [Hin Heq]]. exists kv. apply Nat.eqb_eq in Heq. tauto.
  - intros [kv [Heq Hin]]. exists kv. split; [exact Hin | now apply Nat.eqb_eq].
Qed.

Lemma dict_del_absent (k : WebSocket) (d : registry) :
  dict_mem k d = false -> dict_del k d = d.
Proof.
  unfold dict_del. induction d as [| [k' v] d IH]; simpl; intro H; [reflexivity |].
  apply orb_false_iff in H. destruct H as [Hk Hd].
  rewrite Hk. simpl. now rewrite (IH Hd).
Qed.

Lemma dict_mem_del (k k' : WebSocket) (d : registry) :
  dict_mem k (dict_del k' d) = dict_mem k d && negb (Nat.eqb k k').
Proof.
  unfold dict_del. induction d as [| [k0 v] d IH]; simpl; [reflexivity |].
  destruct (Nat.eqb_spec k0 k') as [-> | Hne]; simpl.
  - rewrite IH. destruct (Nat.eqb_spec k' k) as [-> | Hne'].
    + rewrite Nat.eqb_refl. simpl. now rewrite andb_false_r.
    + reflexivity.
  - rewrite IH. destruct (Nat.eqb_spec k0 k) as [-> | Hne']; simpl; [| reflexivity].
    destruct (Nat.eqb_spec k k'); [congruence | reflexivity].
Qed.

Lemma disconnect_del (k : WebSocket) (d : registry) : disconnect k d = dict_del k d.
Proof.
  unfold disconnect. destruct (dict_mem k d) eqn:H; [reflexivity |].
  symmetry. apply dict_del_absent, H.
Qed.

Lemma disconnect_absent (k : WebSocket) (d : registry) :
  dict_mem k d = false -> disconnect k d = d.
Proof. intro H. unfold disconnect. now rewrite H. Qed.

Lemma dict_mem_disconnect (k : WebSocket) (d : registry) :
  dict_mem k (disconnect k d) = false.
Proof.
  rewrite disconnect_del, dict_mem_del, Nat.eqb_refl. apply andb_false_r.
Qed.

Lemma dict_mem_set (k k' : WebSocket) (v : bool) (d : registry) :
  dict_mem k (dict_set k' v d) = dict_mem k d || Nat.eqb k' k.
Proof.
  induction d as [| [k0 v0] d IH]; simpl.
  - now rewrite orb_false_r.
  - destruct (Nat.eqb_spec k0 k') as [-> | Hne]; simpl.
    + destruct (Nat.eqb k' k); simpl; [reflexivity | now rewrite orb_false_r].
    + rewrite IH. now rewrite orb_assoc.
Qed.

Lemma dict_get_set (k : WebSocket) (v : bool) (d : registry) :
  dict_get k (dict_set k v d) = Some v.
Proof.
  induction d as [| [k0 v0] d IH]; simpl.
  - now rewrite Nat.eqb_refl.
  - destruct (Nat.eqb_spec k0 k) as [-> | Hne]; simpl.
    + now rewrite Nat.eqb_refl.
    + destruct (Nat.eqb_spec k0 k); [congruence | apply IH].
Qed.

Lemma keys_set (k : WebSocket) (v : bool) (d : registry) :
  keys (dict_set k v d) = if dict_mem k d then keys d else keys d ++ [k].
Proof.
  induction d as [| [k0 v0] d IH]; simpl; [reflexivity |].
  destruct (Nat.eqb_spec k0 k) as [-> | Hne]; simpl; [reflexivity |].
  rewrite IH. now destruct (dict_mem k d).
Qed.

(** The dict operations keep the keys distinct. *)
Lemma connect_wf (w : World) (k : WebSocket) (d d' : registry) :
  dict_wf d -> connect w k d = Ok d' -> dict_wf d'.
Proof.
  unfold connect, dict_wf. intros Hwf H.
  destruct (accept w k); simpl in H; [| discriminate].
  injection H as <-. rewrite keys_set.
  destruct (dict_mem k d) eqn:Hm; [exact Hwf |].
  apply NoDup_app; [exact Hwf | repeat constructor; intros [] | ].
  intros x Hx [<- | []]. apply dict_mem_In in Hx. congruence.
Qed.

Lemma disconnect_wf (k : WebSocket) (d : registry) :
  dict_wf d -> dict_wf (disconnect k d).
Proof.
  rewrite disconnect_del. unfold dict_wf, dict_del, keys.
  induction d as [| [k0 v0] d IH]; simpl; intro H; [constructor |].
  inversion H as [| ? ? Hnin Hnd]; subst.
  destruct (Nat.eqb k0 k); simpl; [apply IH, Hnd |].
  constructor; [| apply IH, Hnd].
  rewrite in_map_iff. intros [kv [Hk Hin]]. apply filter_In in Hin.
  apply Hnin. rewrite in_map_iff. exists kv. tauto.
Qed.

(** ** ConnectionManager *)

(** C10: [send_personal_message] on a handle that is not registered
    attempts no write, raises nothing and leaves the registry as it was. *)
Theorem send_personal_message_unregistered
        (w : World) (message : json) (websocket : WebSocket) (d : registry) :
  dict_mem websocket d = false ->
  send_personal_message w message websocket d = (d, []).
Proof.
  intro H. unfold send_personal_message. now rewrite H.
Qed.

Lemma send_personal_message_unregistered_witness :
  dict_mem 7%nat [(1%nat, true); (2%nat, true)] = false /\
  send_personal_message (sample_world None [7%nat]) (JStr "tick") 7%nat
                        [(1%nat, true); (2%nat, true)]
  = ([(1%nat, true); (2%nat, true)], []).
Proof.
  split; [reflexivity |].
  apply (send_personal_message_unregistered
           (sample_world None [7%nat]) (JStr "tick") 7%nat
           [(1%nat, true); (2%nat, true)]).
  reflexivity.
Defined.

Lemma broadcast_sends_eq (w : World) (meanwhile : registry -> registry) (message : json)
      (size remaining : nat) (d : registry) :
  broadcast_sends w meanwhile message size remaining d
  = if negb (length d =? size)%nat
    then (d, None, [])
    else
      match remaining with
      | O => (d, Some [], [])
      | S remaining' =>
          match nth_error (keys d) (size - remaining)%nat with
          | None => (d, Some [], [])
          | Some websocket =>
              let '(d', disconnected, tr) :=
                broadcast_sends w meanwhile message size remaining' (meanwhile d) in
              match send_json w websocket message with
              | Ok _ => (d', disconnected, EvSend websocket message true :: tr)
              | Raise _ => (d', option_map (cons websocket) disconnected,
                            EvSend websocket message false :: tr)
              end
          end
      end.
Proof. destruct remaining; reflexivity. Qed.

Lemma skipn_nth_error {A : Type} (l : list A) :
  forall n x, nth_error l n = Some x -> skipn n l = x :: skipn (S n) l.
Proof.
  induction l as [| a l IH]; intros [| n] x H; simpl in *; try discriminate.
  - now inversion H.
  - now apply IH.
Qed.

(** While the other tasks leave the registry as it is, the first loop of
    [broadcast] sends to each handle from its position on, in the order of
    the dict, and collects the ones whose send raised. *)
Lemma broadcast_sends_quiet (w : World) (meanwhile : registry -> registry)
      (message : json) (d : registry) :
  meanwhile d = d ->
  forall remaining, (remaining <= length d)%nat ->
    broadcast_sends w meanwhile message (length d) remaining d
    = (d,
       Some (filter (fun ws => negb (is_ok (send_json w ws message)))
                    (skipn (length d - remaining) (keys d))),
       map (fun ws => EvSend ws message (is_ok (send_json w ws message)))
           (skipn (length d - remaining) (keys d))).
Proof.
  intro Hquiet.
  assert (Hlen : length (keys d) = length d) by (unfold keys; apply length_map).
  induction remaining as [| r IH]; intro Hle;
    rewrite broadcast_sends_eq, Nat.eqb_refl; simpl negb; cbv iota.
  - rewrite Nat.sub_0_r, skipn_all2 by lia. reflexivity.
  - destruct (nth_error (keys d) (length d - S r)) as [ws |] eqn:Hnth.
    + rewrite Hquiet, IH by lia. rewrite (skipn_nth_error _ _ _ Hnth).
      replace (S (length d - S r)) with (length d - r)%nat by lia. simpl.
      destruct (send_json w ws message); reflexivity.
    + apply nth_error_None in Hnth. lia.
Qed.

(** The second loop removes exactly the entries of the collected handles. *)
Lemma prune_filter (disconnected : list WebSocket) (d : registry) :
  prune disconnected d
  = filter (fun kv => negb (existsb (Nat.eqb (fst kv)) disconnected)) d.
Proof.
  unfold prune. revert d.
  induction disconnected as [| ws rest IH]; intro d; simpl.
  - induction d as [| kv d IHd]; simpl; [reflexivity | now rewrite <- IHd].
  - rewrite IH, disconnect_del. unfold dict_del.
    induction d as [| kv d IHd]; simpl; [reflexivity |].
    destruct (Nat.eqb (fst kv) ws); simpl; [exact IHd |].
    destruct (existsb (Nat.eqb (fst kv)) rest); simpl; [exact IHd | now rewrite IHd].
Qed.

Lemma attempts_sends (w : World) (message : json) (handles : list WebSocket) :
  map fst (attempts
             (map (fun ws => EvSend ws message (is_ok (send_json w ws message))) handles))
  = handles.
Proof.
  induction handles as [| ws rest IH]; simpl; [reflexivity | now rewrite IH].
Qed.

Lemma count_occ_NoDup (l : list WebSocket) (k : WebSocket) :
  NoDup l -> count_occ Nat.eq_dec l k = if existsb (Nat.eqb k) l then 1%nat else 0%nat.
Proof.
  induction 1 as [| x l Hnin Hnd IH]; simpl; [reflexivity |].
  destruct (Nat.eq_dec x k) as [-> | Hne].
  - rewrite Nat.eqb_refl. simpl. f_equal.
    apply count_occ_not_In. exact Hnin.
  - destruct (Nat.eqb_spec k x); [congruence | exact IH].
Qed.

Lemma dict_mem_keys (k : WebSocket) (d : registry) :
  dict_mem k d = existsb (Nat.eqb k) (keys d).
Proof.
  unfold dict_mem, keys. induction d as [| kv d IH]; simpl; [reflexivity |].
  now rewrite IH, Nat.eqb_sym.
Qed.

(** A [broadcast] during which the other tasks leave the registry as it is
    returns; it has sent to every handle in the order of the dict, and the
    registry it leaves holds the entries whose send succeeded. *)
Lemma broadcast_quiet (w : World) (meanwhile : registry -> registry) (message : json)
      (d : registry) :
  meanwhile d = d ->
  broadcast w meanwhile message d
  = (filter (fun kv => is_ok (send_json w (fst kv) message)) d,
     map (fun ws => EvSend ws message (is_ok (send_json w ws message))) (keys d),
     Ok tt).
Proof.
  intro Hquiet. unfold broadcast.
  rewrite (broadcast_sends_quiet w meanwhile message d Hquiet (length d) (Nat.le_refl _)).
  rewrite Nat.sub_diag. simpl skipn. f_equal. f_equal.
  rewrite prune_filter. apply filter_ext_in. intros [k v] Hin. simpl.
  destruct (is_ok (send_json w k message)) eqn:Hok; simpl.
  - apply negb_true_iff. apply not_true_iff_false. intro Hex.
    apply existsb_exists in Hex. destruct Hex as [x [Hx Heq]].
    apply Nat.eqb_eq in Heq. subst x. apply filter_In in Hx.
    rewrite Hok in Hx. now destruct Hx.
  - apply negb_false_iff. apply existsb_exists. exists k. split.
    + apply filter_In. split; [| now rewrite Hok].
      unfold keys. apply in_map_iff. now exists (k, v).
    + apply Nat.eqb_refl.
Qed.

(** C5: [broadcast] iterates the dict itself across its awaited sends.  With
    handles 1 and 2 registered and a client that connects (handle 3) while
    the send to handle 1 is awaited, the iterator raises at the next step
    of the [for]: [broadcast] raises [RuntimeError], handle 2, registered
    from the start and still registered, is never written to, and when the
    send to handle 1 had failed, handle 1 is still registered afterwards
    because the pruning loop was not reached. *)
Theorem broadcast_aborts_when_registry_changes :
  broadcast (sample_world None []) (dict_set 3%nat true)
            (JDict [("electionId", JInt 1)])
            [(1%nat, true); (2%nat, true)]
  = ([(1%nat, true); (2%nat, true); (3%nat, true)],
     [EvSend 1%nat (JDict [("electionId", JInt 1)]) true],
     Raise (Error "dictionary changed size during iteration"))
  /\ broadcast (sample_world None [1%nat]) (dict_set 3%nat true)
               (JDict [("electionId", JInt 1)])
               [(1%nat, true); (2%nat, true)]
     = ([(1%nat, true); (2%nat, true); (3%nat, true)],
        [EvSend 1%nat (JDict [("electionId", JInt 1)]) false],
        Raise (Error "dictionary changed size during iteration")).
Proof. split; reflexivity. Qed.

(** ** get_election_results *)

Section FetcherFacts.

Variable R : Runtime.

Lemma in_range_test (election_id election_count : Z) :
  1 <= election_id <= election_count ->
  (election_id <? 1) || (election_id >? election_count) = false.
Proof.
  intro H. destruct (Z.ltb_spec election_id 1); [lia |].
  destruct (Z.gtb_spec election_id election_count); [lia | reflexivity].
Qed.

Lemma out_of_range_test (election_id election_count : Z) :
  election_id < 1 \/ election_id > election_count ->
  (election_id <? 1) || (election_id >? election_count) = true.
Proof.
  intro H. destruct (Z.ltb_spec election_id 1); [reflexivity |].
  destruct (Z.gtb_spec election_id election_count); [reflexivity | lia].
Qed.

(** An election inside the declared range whose record builds: the fetcher
    returns it with whatever the candidate read produced. *)
Lemma fetch_in_range (c : Contract) (t : datetime) (election_id election_count : Z)
      (election_data : list pyval) (e : Election) :
  electionCount c = Returns election_count ->
  1 <= election_id <= election_count ->
  getElection c election_id = Returns election_data ->
  build_election R election_data = Ok e ->
  get_election_results R (Some c) t election_id
  = Ok {| election := e; candidates := read_candidates R c election_id;
          lastUpdate := t |}.
Proof.
  intros Hcount Hrange Hdata Hbuild.
  unfold get_election_results, get_election_results_body.
  rewrite Hcount. simpl. rewrite (in_range_test _ _ Hrange), Hdata. simpl.
  now rewrite Hbuild.
Qed.

(** An id outside the declared range: the 404 passes through the outer
    handler untouched. *)
Lemma fetch_out_of_range (c : Contract) (t : datetime) (election_id election_count : Z) :
  electionCount c = Returns election_count ->
  election_id < 1 \/ election_id > election_count ->
  get_election_results R (Some c) t election_id
  = Raise (HTTPException 404 ("Election " ++ str_int election_id ++ " does not exist")).
Proof.
  intros Hcount Hrange.
  unfold get_election_results, get_election_results_body.
  rewrite Hcount. simpl. now rewrite (out_of_range_test _ _ Hrange).
Qed.

Lemma read_candidates_failure (c : Contract) (election_id : Z) (cause : string) :
  getElectionResults c election_id = Fails cause ->
  read_candidates R c election_id = [].
Proof.
  intro H. unfold read_candidates. rewrite H.
  now destruct (contains "underflow or overflow" (str_exn (Error cause))).
Qed.

(** C1 (as the code has it): for an election inside [1, count] whose record
    was read and builds, a failing candidate read never turns into an
    error, whatever the failure says: the fetcher returns the election
    fields of the record with an empty candidate sequence. *)
Theorem fetch_candidate_read_failure
        (c : Contract) (t : datetime) (election_id election_count : Z)
        (election_data : list pyval) (e : Election) (cause : string) :
  electionCount c = Returns election_count ->
  1 <= election_id <= election_count ->
  getElection c election_id = Returns election_data ->
  build_election R election_data = Ok e ->
  getElectionResults c election_id = Fails cause ->
  get_election_results R (Some c) t election_id
  = Ok {| election := e; candidates := []; lastUpdate := t |}.
Proof.
  intros Hcount Hrange Hdata Hbuild Hfail.
  rewrite (fetch_in_range c t election_id election_count election_data e)
    by assumption.
  now rewrite (read_candidates_failure c election_id cause Hfail).
Qed.

Lemma Election_init_status (a0 a1 a2 a3 a4 a5 a6 a7 a8 : pyval) (e : Election) :
  Election_init R a0 a1 a2 a3 a4 a5 a6 a7 a8 None = Ok e -> status e = None.
Proof.
  unfold Election_init.
  destruct (validate_int R a0); simpl; [discriminate |].
  destruct (validate_str R a1); simpl; [discriminate |].
  destruct (validate_str R a2); simpl; [discriminate |].
  destruct (validate_int R a3); simpl; [discriminate |].
  destruct (validate_int R a4); simpl; [discriminate |].
  destruct (validate_bool R a5); simpl; [discriminate |].
  destruct (validate_str R a6); simpl; [discriminate |].
  destruct (validate_int R a7); simpl; [discriminate |].
  destruct (validate_int R a8); simpl; [discriminate |].
  intro H. injection H as <-. reflexivity.
Qed.

Lemma build_election_status (election_data : list pyval) (e : Election) :
  build_election R election_data = Ok e -> status e = None.
Proof.
  unfold build_election.
  repeat match goal with
         | |- context [bind ?m _] =>
             destruct m as [? | ?]; cbn [bind]; [| discriminate]
         end.
  apply Election_init_status.
Qed.

(** No path of the fetcher fills in [status]: neither the model built from
    the record nor the fallback. *)
Lemma get_election_results_status (contract : option Contract) (t : datetime)
      (election_id : Z) (r : ElectionResults) :
  get_election_results R contract t election_id = Ok r ->
  status (election r) = None.
Proof.
  unfold get_election_results.
  destruct (get_election_results_body R contract t election_id) as [r' | e] eqn:Hbody.
  - intro H. injection H as <-.
    unfold get_election_results_body in Hbody.
    destruct contract as [c |]; [| discriminate].
    destruct (electionCount c); simpl in Hbody; [| discriminate].
    destruct ((election_id <? 1) || (election_id >? a)); [discriminate |].
    destruct (getElection c election_id); simpl in Hbody; [| discriminate].
    destruct (build_election R a0) as [e |] eqn:Hb; simpl in Hbody; [| discriminate].
    injection Hbody as <-. simpl. apply (build_election_status _ _ Hb).
  - destruct e; try discriminate;
      destruct (contains "underflow or overflow" _); try discriminate;
      intro H; injection H as <-; reflexivity.
Qed.

(** C9 (as the code has it): for an election inside [1, count] whose record
    was read and builds, the fetcher returns a snapshot with the election
    fields of the record and with [status] left at [None]. *)
Theorem fetched_status_is_none
        (c : Contract) (t : datetime) (election_id election_count : Z)
        (election_data : list pyval) (e : Election) :
  electionCount c = Returns election_count ->
  1 <= election_id <= election_count ->
  getElection c election_id = Returns election_data ->
  build_election R election_data = Ok e ->
  exists r, get_election_results R (Some c) t election_id = Ok r
            /\ election r = e
            /\ status (election r) = None.
Proof.
  intros Hcount Hrange Hdata Hbuild.
  eexists. split; [| split].
  - apply (fetch_in_range c t election_id election_count election_data e);
      assumption.
  - reflexivity.
  - simpl. apply (build_election_status _ _ Hbuild).
Qed.

End FetcherFacts.

Lemma fetch_candidate_read_failure_witness :
  contains "underflow or overflow" underflow_panic = true /\
  get_election_results sample_runtime
                       (Some (sample_ledger 2 (Fails underflow_panic))) 1714564800 1
  = Ok {| election := sample_election 1; candidates := []; lastUpdate := 1714564800 |}.
Proof.
  split; [reflexivity |].
  apply (fetch_candidate_read_failure
           sample_runtime (sample_ledger 2 (Fails underflow_panic)) 1714564800 1 2
           (sample_election_data 1) (sample_election 1) underflow_panic).
  - reflexivity.
  - lia.
  - reflexivity.
  - reflexivity.
  - reflexivity.
Defined.

(** C1 as stated fails: the candidate read of election 1 raises a revert
    whose text has nothing of the empty-collection fault, and the fetcher
    still returns the election with an empty candidate sequence instead of
    an error. *)
Lemma candidate_read_error_is_not_raised :
  getElectionResults (sample_ledger 2 (Fails revert_error)) 1 = Fails revert_error /\
  contains "underflow or overflow" revert_error = false /\
  get_election_results sample_runtime
                       (Some (sample_ledger 2 (Fails revert_error))) 1714564800 1
  = Ok {| election := sample_election 1; candidates := []; lastUpdate := 1714564800 |} /\
  is_ok (get_election_results sample_runtime
                              (Some (sample_ledger 2 (Fails revert_error))) 1714564800 1)
  = true.
Proof. repeat split. Qed.

Lemma fetched_status_is_none_witness :
  exists r,
    get_election_results sample_runtime
                         (Some (sample_ledger 2 (Returns sample_results_data))) 1714564800 2
    = Ok r
    /\ election r = sample_election 2
    /\ status (election r) = None.
Proof.
  apply (fetched_status_is_none
           sample_runtime (sample_ledger 2 (Returns sample_results_data)) 1714564800 2 2
           (sample_election_data 2) (sample_election 2)).
  - reflexivity.
  - lia.
  - reflexivity.
  - reflexivity.
Defined.

(** C9 as stated fails: the ledger labels election 1 "Active", and the
    snapshot the fetcher returns for it has no status. *)
Lemma fetched_status_ignores_ledger_label :
  getElectionStatus (sample_ledger 2 (Returns sample_results_data)) 1 = Returns "Active" /\
  get_election_results sample_runtime
                       (Some (sample_ledger 2 (Returns sample_results_data))) 1714564800 1
  = Ok {| election := sample_election 1; candidates := sample_candidates;
          lastUpdate := 1714564800 |} /\
  status (sample_election 1) = None /\
  status (sample_election 1) <> Some "Active".
Proof. repeat split. discriminate. Qed.

(** ** websocket_results *)

Lemma dict_get_mem (k : WebSocket) (d : registry) (b : bool) :
  dict_get k d = Some b -> dict_mem k d = true.
Proof.
  unfold dict_mem. induction d as [| [k0 v0] d IH]; simpl; [discriminate |].
  destruct (Nat.eqb k0 k); simpl; [reflexivity | exact IH].
Qed.

(** A registered handle: one write, and the entry goes when the write
    raises. *)
Lemma send_personal_message_live (w : World) (message : json) (k : WebSocket)
      (d : registry) :
  dict_get k d = Some true ->
  send_personal_message w message k d
  = (if is_ok (send_json w k message) then d else disconnect k d,
     [EvSend k message (is_ok (send_json w k message))]).
Proof.
  intro H. unfold send_personal_message, flag.
  rewrite (dict_get_mem _ _ _ H), H. simpl.
  now destruct (send_json w k message).
Qed.

Lemma session_in_range_test (election_id election_count : Z) :
  1 <= election_id <= election_count ->
  (election_id >? 0) && (election_id <=? election_count) = true.
Proof.
  intro H. destruct (Z.gtb_spec election_id 0); [| lia].
  destruct (Z.leb_spec election_id election_count); [reflexivity | lia].
Qed.

Lemma session_out_of_range_test (election_id election_count : Z) :
  election_id < 1 \/ election_id > election_count ->
  (election_id >? 0) && (election_id <=? election_count) = false.
Proof.
  intro H. destruct (Z.gtb_spec election_id 0); [| reflexivity].
  destruct (Z.leb_spec election_id election_count); [lia | reflexivity].
Qed.






Section SessionFacts.

Variable R : Runtime.

(** The iteration of a registered handle on an election inside the range:
    one fetch, then what the fetch's result calls for. *)
Lemma session_try_in_range (w : World) (k : WebSocket) (election_id election_count : Z)
      (d : registry) (c : Contract) :
  contract w = Some c ->
  electionCount c = Returns election_count ->
  1 <= election_id <= election_count ->
  dict_mem k d = true ->
  session_try R w k election_id d
  = (Next,
     fst (match get_election_results R (Some c) (now w) election_id with
          | Ok results => send_personal_message w (results_dict R results) k d
          | Raise e =>
              if contains "underflow or overflow" (str_exn e)
              then send_personal_message w (empty_result R (now w) election_id) k d
              else (d, [])
          end),
     EvFetch election_id ::
     snd (match get_election_results R (Some c) (now w) election_id with
          | Ok results => send_personal_message w (results_dict R results) k d
          | Raise e =>
              if contains "underflow or overflow" (str_exn e)
              then send_personal_message w (empty_result R (now w) election_id) k d
              else (d, [])
          end)).
Proof.
  intros Hc Hcount Hrange Hmem. unfold session_try.
  rewrite Hmem, Hc, Hcount, (session_in_range_test _ _ Hrange). simpl.
  now destruct (match get_election_results R (Some c) (now w) election_id with
                | Ok _ => _ | Raise _ => _ end).
Qed.

(** The iteration on an id outside the range: the error payload, then
    [break]. *)
Lemma session_try_not_found (w : World) (k : WebSocket) (election_id election_count : Z)
      (d : registry) (c : Contract) :
  contract w = Some c ->
  electionCount c = Returns election_count ->
  election_id < 1 \/ election_id > election_count ->
  dict_get k d = Some true ->
  session_try R w k election_id d
  = (Break,
     if is_ok (send_json w k (not_found_msg election_id)) then d else disconnect k d,
     [EvSend k (not_found_msg election_id)
             (is_ok (send_json w k (not_found_msg election_id)))]).
Proof.
  intros Hc Hcount Hrange Hget. unfold session_try.
  rewrite (dict_get_mem _ _ _ Hget), Hc, Hcount,
    (session_out_of_range_test _ _ Hrange). simpl.
  now rewrite (send_personal_message_live w _ k d Hget).
Qed.

Lemma connect_accepted (w0 : World) (k : WebSocket) (d : registry) :
  accept w0 k = Ok tt -> connect w0 k d = Ok (dict_set k true d).
Proof. intro H. unfold connect. now rewrite H. Qed.

(** C2: with [election_id] outside [1, count] the fetcher raises the 404
    "Election <id> does not exist", and a session on that id makes one
    write, the error payload naming the id, leaves its loop in the same
    iteration whatever the rest of the schedule holds, and ends with its
    handle out of the registry. *)
Theorem not_found_ends_session
        (c : Contract) (election_id election_count : Z) (w0 w : World)
        (rest : list World) (k : WebSocket) (d : registry) :
  electionCount c = Returns election_count ->
  election_id < 1 \/ election_id > election_count ->
  contract w = Some c ->
  accept w0 k = Ok tt ->
  get_election_results R (Some c) (now w) election_id
  = Raise (HTTPException 404 ("Election " ++ str_int election_id ++ " does not exist"))
  /\ websocket_results R w0 (w :: rest) k election_id d
     = Exited (disconnect k (dict_set k true d))
              [EvSend k (JDict [("error", JStr ("Election " ++ str_int election_id
                                                 ++ " does not exist"));
                                ("electionId", JInt election_id)])
                      (is_ok (send_json w k (not_found_msg election_id)))]
  /\ dict_mem k (disconnect k (dict_set k true d)) = false.
Proof.
  intros Hcount Hrange Hc Haccept. split; [| split].
  - apply (fetch_out_of_range R c (now w) election_id election_count Hcount Hrange).
  - unfold websocket_results. rewrite (connect_accepted _ _ _ Haccept).
    cbn [session_loop].
    rewrite (session_try_not_found w k election_id election_count _ c Hc Hcount Hrange
               (dict_get_set k true d)).
    destruct (is_ok (send_json w k (not_found_msg election_id))); [reflexivity |].
    f_equal. apply disconnect_absent, dict_mem_disconnect.
  - apply dict_mem_disconnect.
Qed.

(** C8: however the loop of a session is left, the registry after
    [finally] does not hold the session's handle; and [disconnect] of a
    handle that is not registered returns the registry unchanged. *)
Theorem session_exit_unregisters
        (w0 : World) (schedule : list World) (k : WebSocket) (election_id : Z)
        (d d' : registry) (tr : trace) :
  websocket_results R w0 schedule k election_id d = Exited d' tr ->
  dict_mem k d' = false
  /\ (forall d2, dict_mem k d2 = false -> disconnect k d2 = d2).
Proof.
  intro H. split; [| intros d2; apply disconnect_absent].
  unfold websocket_results in H.
  destruct (connect w0 k d) as [d0 |]; [| discriminate].
  destruct (session_loop R schedule k election_id d0); try discriminate.
  injection H as <- _. apply dict_mem_disconnect.
Qed.




End SessionFacts.

Section EmptyElectionFacts.

Variable R : Runtime.

Lemma session_try_awaiting (w : World) (k : WebSocket) (election_id : Z)
      (d : registry) (e : Election) :
  undisturbed k election_id w ->
  awaiting_candidates R election_id w e ->
  dict_get k d = Some true ->
  session_try R w k election_id d
  = (Next, d, [EvFetch election_id; EvSend k (empty_snapshot R w e) true]).
Proof.
  intros [(c & election_count & Hc & Hcount & Hrange) [Hsend _]]
         (c' & election_data & cause & Hc' & Hdata & Hbuild & Hfail & _) Hget.
  rewrite Hc in Hc'. injection Hc' as <-.
  rewrite (session_try_in_range R w k election_id election_count d c Hc Hcount Hrange
             (dict_get_mem _ _ _ Hget)).
  rewrite (fetch_in_range R c (now w) election_id election_count election_data e
             Hcount Hrange Hdata Hbuild).
  rewrite (read_candidates_failure R c election_id cause Hfail).
  rewrite (send_personal_message_live w _ k d Hget).
  fold (empty_snapshot R w e). now rewrite Hsend.
Qed.

Lemma session_loop_awaiting (k : WebSocket) (election_id : Z)
      (schedule : list World) (elections : list Election) :
  Forall2 (fun w e => undisturbed k election_id w
                      /\ awaiting_candidates R election_id w e)
          schedule elections ->
  forall d,
    dict_get k d = Some true ->
    exists d',
      session_loop R schedule k election_id d
      = Running d' (flat_map (fun we => [EvFetch election_id;
                                         EvSend k (empty_snapshot R (fst we) (snd we)) true;
                                         EvSleep 2.5%Q])
                             (combine schedule elections)).
Proof.
  induction 1 as [| w e schedule elections [Hw He] _ IH]; intros d Hget.
  - exists d. reflexivity.
  - assert (Hget' : dict_get k (others w d) = Some true).
    { destruct Hw as (_ & _ & Hothers). now rewrite Hothers. }
    destruct (IH (others w d) Hget') as (d' & Hloop).
    exists d'. cbn [session_loop combine flat_map fst snd].
    now rewrite (session_try_awaiting w k election_id d e Hw He Hget), Hloop.
Qed.

(** C6 (as the code has it): while the election exists and its candidate
    read raises the empty-collection fault, every iteration of an
    undisturbed session fetches, writes the snapshot built from the
    ledger's election record with an empty candidate sequence, and sleeps;
    the payload has no [info] note and is not an error payload, and the
    session is still in its loop after the whole schedule. *)
Theorem empty_election_feed
        (w0 : World) (schedule : list World) (elections : list Election)
        (k : WebSocket) (election_id : Z) (d : registry) :
  accept w0 k = Ok tt ->
  Forall2 (fun w e => undisturbed k election_id w
                      /\ awaiting_candidates R election_id w e)
          schedule elections ->
  (exists d',
      websocket_results R w0 schedule k election_id d
      = Running d' (flat_map (fun we => [EvFetch election_id;
                                         EvSend k (empty_snapshot R (fst we) (snd we)) true;
                                         EvSleep 2.5%Q])
                             (combine schedule elections)))
  /\ (forall w e,
         json_get "election" (empty_snapshot R w e) = Some (Election_dict e)
         /\ json_get "candidates" (empty_snapshot R w e) = Some (JList [])
         /\ json_get "info" (empty_snapshot R w e) = None
         /\ is_error_payload (empty_snapshot R w e) = false).
Proof.
  intros Haccept Hall. split; [| intros w e; repeat split].
  destruct (session_loop_awaiting k election_id schedule elections Hall
              (dict_set k true d) (dict_get_set k true d)) as (d' & Hloop).
  exists d'. unfold websocket_results.
  now rewrite (connect_accepted _ _ _ Haccept), Hloop.
Qed.

End EmptyElectionFacts.

(** *** The session on concrete schedules *)

Lemma sample_world_undisturbed (count : Z) (results : call (list (list pyval)))
      (k : WebSocket) (election_id : Z) :
  1 <= election_id <= count ->
  undisturbed k election_id (sample_world (Some (sample_ledger count results)) []).
Proof.
  intro H. split; [| split].
  - exists (sample_ledger count results), count. now repeat split.
  - reflexivity.
  - reflexivity.
Qed.

Lemma not_found_ends_session_witness :
  websocket_results sample_runtime
                    (sample_world (Some (sample_ledger 2 (Returns sample_results_data))) [])
                    [sample_world (Some (sample_ledger 2 (Returns sample_results_data))) [];
                     sample_world (Some (sample_ledger 2 (Returns sample_results_data))) []]
                    5%nat 3 []
  = Exited [] [EvSend 5%nat
                      (JDict [("error", JStr "Election 3 does not exist");
                              ("electionId", JInt 3)])
                      true].
Proof.
  destruct (not_found_ends_session
              sample_runtime (sample_ledger 2 (Returns sample_results_data)) 3 2
              (sample_world (Some (sample_ledger 2 (Returns sample_results_data))) [])
              (sample_world (Some (sample_ledger 2 (Returns sample_results_data))) [])
              [sample_world (Some (sample_ledger 2 (Returns sample_results_data))) []]
              5%nat [] eq_refl (or_intror (eq_refl : (3 ?= 2) = Gt)) eq_refl eq_refl)
    as (_ & Hrun & _).
  exact Hrun.
Defined.


(** A write failure: the first iteration's send raises and drops the
    handle, the second iteration finds it gone and leaves the loop. *)
Lemma session_exit_unregisters_witness :
  websocket_results sample_runtime
                    (sample_world (Some (sample_ledger 2 (Fails underflow_panic))) [5%nat])
                    [sample_world (Some (sample_ledger 2 (Fails underflow_panic))) [5%nat];
                     sample_world (Some (sample_ledger 2 (Fails underflow_panic))) [5%nat]]
                    5%nat 1 [(4%nat, true)]
  = Exited [(4%nat, true)]
           [EvFetch 1;
            EvSend 5%nat
                   (empty_snapshot sample_runtime
                      (sample_world (Some (sample_ledger 2 (Fails underflow_panic))) [5%nat])
                      (sample_election 1))
                   false;
            EvSleep 2.5%Q]
  /\ dict_mem 5%nat [(4%nat, true)] = false
  /\ (forall d2, dict_mem 5%nat d2 = false -> disconnect 5%nat d2 = d2).
Proof.
  split; [reflexivity |].
  apply (session_exit_unregisters
           sample_runtime
           (sample_world (Some (sample_ledger 2 (Fails underflow_panic))) [5%nat])
           [sample_world (Some (sample_ledger 2 (Fails underflow_panic))) [5%nat];
            sample_world (Some (sample_ledger 2 (Fails underflow_panic))) [5%nat]]
           5%nat 1 [(4%nat, true)] [(4%nat, true)]
           [EvFetch 1;
            EvSend 5%nat
                   (empty_snapshot sample_runtime
                      (sample_world (Some (sample_ledger 2 (Fails underflow_panic))) [5%nat])
                      (sample_election 1))
                   false;
            EvSleep 2.5%Q]).
  reflexivity.
Defined.

(** The other ways out of the loop. *)
Example session_exits_when_dropped_by_others :
  websocket_results sample_runtime
                    (sample_world (Some (sample_ledger 2 (Returns []))) [])
                    [dropped_by_others 5%nat (sample_world (Some (sample_ledger 2 (Returns []))) []);
                     sample_world (Some (sample_ledger 2 (Returns []))) []]
                    5%nat 1 [(4%nat, true)]
  = Exited [(4%nat, true)]
           [EvFetch 1;
            EvSend 5%nat
                   (empty_snapshot sample_runtime
                      (sample_world (Some (sample_ledger 2 (Returns []))) [])
                      (sample_election 1))
                   true;
            EvSleep 2.5%Q].
Proof. reflexivity. Qed.

Example session_exits_when_count_read_raises :
  websocket_results sample_runtime
                    (sample_world (Some silent_ledger) [])
                    [sample_world (Some silent_ledger) []]
                    5%nat 1 [(4%nat, true)]
  = Exited [(4%nat, true)] [].
Proof. reflexivity. Qed.

(** Without a contract the session reports it on every iteration and stays
    in its loop. *)
Example session_without_contract :
  websocket_results sample_runtime
                    (sample_world None [])
                    [sample_world None []; sample_world None []]
                    5%nat 1 []
  = Running [(5%nat, true)]
            [EvSend 5%nat (not_loaded_msg 1) true; EvSleep 2.5%Q;
             EvSend 5%nat (not_loaded_msg 1) true; EvSleep 2.5%Q].
Proof. reflexivity. Qed.

Lemma empty_election_feed_witness :
  exists d',
    websocket_results sample_runtime
                      (sample_world (Some (sample_ledger 2 (Fails underflow_panic))) [])
                      [sample_world (Some (sample_ledger 2 (Fails underflow_panic))) [];
                       sample_world (Some (sample_ledger 2 (Fails underflow_panic))) []]
                      5%nat 1 []
    = Running d'
              [EvFetch 1;
               EvSend 5%nat
                      (empty_snapshot sample_runtime
                         (sample_world (Some (sample_ledger 2 (Fails underflow_panic))) [])
                         (sample_election 1))
                      true;
               EvSleep 2.5%Q;
               EvFetch 1;
               EvSend 5%nat
                      (empty_snapshot sample_runtime
                         (sample_world (Some (sample_ledger 2 (Fails underflow_panic))) [])
                         (sample_election 1))
                      true;
               EvSleep 2.5%Q].
Proof.
  apply (empty_election_feed
           sample_runtime
           (sample_world (Some (sample_ledger 2 (Fails underflow_panic))) [])
           [sample_world (Some (sample_ledger 2 (Fails underflow_panic))) [];
            sample_world (Some (sample_ledger 2 (Fails underflow_panic))) []]
           [sample_election 1; sample_election 1]
           5%nat 1 []).
  - reflexivity.
  - repeat (apply Forall2_cons;
            [split;
             [apply sample_world_undisturbed; lia
             | exists (sample_ledger 2 (Fails underflow_panic)),
                      (sample_election_data 1), underflow_panic;
               repeat split]
            |]).
    apply Forall2_nil.
Defined.

(** C6 as stated fails: election 1 exists and its candidate read raises
    the empty-collection fault; what the session writes is the snapshot with
    the ledger's election fields (name, start time) and no [info] note, not
    the zeroed "Loading..." placeholder. *)
Lemma empty_election_payload_is_not_placeholder :
  delivered
    (trace_of
       (websocket_results sample_runtime
                          (sample_world (Some (sample_ledger 2 (Fails underflow_panic))) [])
                          [sample_world (Some (sample_ledger 2 (Fails underflow_panic))) []]
                          5%nat 1 []))
  = [(5%nat,
      results_dict sample_runtime
                   {| election := sample_election 1; candidates := [];
                      lastUpdate := 1714564800 |})]
  /\ json_get2 "election" "name"
                (results_dict sample_runtime
                              {| election := sample_election 1; candidates := [];
                                 lastUpdate := 1714564800 |})
     = Some (JStr "Student council")
  /\ json_get2 "election" "startTime"
                (results_dict sample_runtime
                              {| election := sample_election 1; candidates := [];
                                 lastUpdate := 1714564800 |})
     = Some (JInt 1714521600)
  /\ json_get "info"
               (results_dict sample_runtime
                             {| election := sample_election 1; candidates := [];
                                lastUpdate := 1714564800 |})
     = None
  /\ json_get2 "election" "name" (empty_result sample_runtime 1714564800 1)
     = Some (JStr "Loading...")
  /\ json_get "info" (empty_result sample_runtime 1714564800 1)
     = Some (JStr "No candidates registered yet").
Proof. repeat split. Qed.

(** ** broadcast_results *)

Lemma fetched_app (tr tr' : trace) : fetched (tr ++ tr') = fetched tr ++ fetched tr'.
Proof. apply flat_map_app. Qed.

Lemma attempts_app (tr tr' : trace) : attempts (tr ++ tr') = attempts tr ++ attempts tr'.
Proof. apply flat_map_app. Qed.

Lemma broadcast_sends_trace (w : World) (meanwhile : registry -> registry)
      (message : json) (size : nat) :
  forall remaining d,
    fetched (snd (broadcast_sends w meanwhile message size remaining d)) = []
    /\ Forall (fun p => snd p = message)
              (attempts (snd (broadcast_sends w meanwhile message size remaining d))).
Proof.
  induction remaining as [| r IH]; intro d; rewrite broadcast_sends_eq;
    destruct (negb (length d =? size)%nat); simpl; try (split; [reflexivity | constructor]).
  destruct (nth_error (keys d) (size - S r)) as [ws |];
    simpl; [| split; [reflexivity | constructor]].
  destruct (IH (meanwhile d)) as [Hf Ha].
  destruct (broadcast_sends w meanwhile message size r (meanwhile d)) as [[d' disc] tr].
  simpl in *.
  destruct (send_json w ws message); simpl; (split; [exact Hf | now constructor]).
Qed.

(** A broadcast fetches nothing and writes only its own payload. *)
Lemma broadcast_trace (w : World) (meanwhile : registry -> registry) (message : json)
      (d : registry) :
  fetched (snd (fst (broadcast w meanwhile message d))) = []
  /\ Forall (fun p => snd p = message)
            (attempts (snd (fst (broadcast w meanwhile message d)))).
Proof.
  unfold broadcast.
  pose proof (broadcast_sends_trace w meanwhile message (length d) (length d) d) as H.
  destruct (broadcast_sends w meanwhile message (length d) (length d) d)
    as [[d' [disconnected |]] tr]; exact H.
Qed.

Section BroadcasterFacts.

Variable R : Runtime.

Lemma broadcast_one_trace (w : World) (meanwhile : registry -> registry)
      (election_id : Z) (d : registry) :
  fetched (snd (broadcast_one R w meanwhile election_id d)) = [election_id]
  /\ Forall (fun p => json_get "electionId" (snd p) = Some (JInt election_id))
            (attempts (snd (broadcast_one R w meanwhile election_id d))).
Proof.
  unfold broadcast_one.
  destruct (get_election_results R (contract w) (now w) election_id) as [results | e].
  - match goal with
    | |- context [broadcast w meanwhile ?m d] =>
        destruct (broadcast_trace w meanwhile m d) as [Hf Ha];
        destruct (broadcast w meanwhile m d) as [[d' tr] r]
    end.
    simpl in *. rewrite Hf. split; [reflexivity |].
    eapply Forall_impl; [| exact Ha]. intros p Hp. now rewrite Hp.
  - simpl. split; [reflexivity | constructor].
Qed.

(** The loop fetches exactly the ids it is given, in order, and every
    payload it broadcasts is tagged with one of them. *)
Lemma broadcast_elections_trace (at_election : Z -> World)
      (meanwhile : registry -> registry) (ids : list Z) :
  forall d,
    fetched (snd (broadcast_elections R at_election meanwhile ids d)) = ids
    /\ Forall (fun p => exists i, json_get "electionId" (snd p) = Some (JInt i) /\ In i ids)
              (attempts (snd (broadcast_elections R at_election meanwhile ids d))).
Proof.
  induction ids as [| election_id rest IH]; intro d; simpl.
  - split; [reflexivity | constructor].
  - destruct (broadcast_one_trace (at_election election_id) meanwhile election_id d)
      as [Hf Ha].
    destruct (broadcast_one R (at_election election_id) meanwhile election_id d)
      as [d1 tr1].
    destruct (IH d1) as [Hf' Ha'].
    destruct (broadcast_elections R at_election meanwhile rest d1) as [d2 tr2].
    simpl in *. rewrite fetched_app, attempts_app, Hf, Hf'. split; [reflexivity |].
    apply Forall_app. split.
    + eapply Forall_impl; [| exact Ha]. intros p Hp. exists election_id. tauto.
    + eapply Forall_impl; [| exact Ha']. intros p (i & Hp & Hi). exists i. tauto.
Qed.

Lemma py_range_In (lo hi i : Z) : In i (py_range lo hi) <-> lo <= i < hi.
Proof.
  unfold py_range. rewrite in_map_iff. split.
  - intros (k & <- & Hk). apply in_seq in Hk. lia.
  - intro H. exists (Z.to_nat (i - lo)). split; [lia |]. apply in_seq. lia.
Qed.

(** A cycle over a loaded contract that reports [election_count > 0]
    elections fetches the ids of [range(1, min(election_count + 1, 10))]:
    1 up to [election_count], and never past 9. *)
Lemma broadcast_cycle_trace (cy : Cycle) (d : registry) (c : Contract)
      (election_count : Z) :
  contract (at_start cy) = Some c ->
  electionCount c = Returns election_count ->
  election_count > 0 ->
  fetched (snd (broadcast_cycle R cy d)) = py_range 1 (Z.min (election_count + 1) 10)
  /\ Forall (fun p => tagged_in 1 (Z.min election_count 9) (snd p))
            (attempts (snd (broadcast_cycle R cy d))).
Proof.
  intros Hc Hcount Hpos. unfold broadcast_cycle. rewrite Hc, Hcount.
  destruct (Z.gtb_spec election_count 0); [| lia].
  destruct (broadcast_elections_trace (at_election cy) (others (at_start cy))
              (py_range 1 (Z.min (election_count + 1) 10)) d) as [Hf Ha].
  destruct (broadcast_elections R (at_election cy) (others (at_start cy))
              (py_range 1 (Z.min (election_count + 1) 10)) d) as [d1 tr1].
  simpl in *. rewrite fetched_app, attempts_app, Hf. simpl.
  rewrite !app_nil_r. split; [reflexivity |].
  eapply Forall_impl; [| exact Ha]. intros p (i & Hp & Hi).
  exists i. split; [exact Hp |]. apply py_range_In in Hi. lia.
Qed.

(** C4: a cycle that reads 12 as the election count fetches elections 1 to
    9, in that order and nothing else, and every payload it broadcasts is
    tagged with an id from 1 to 9. *)
Theorem broadcast_cycle_count_twelve (cy : Cycle) (d : registry) (c : Contract) :
  contract (at_start cy) = Some c ->
  electionCount c = Returns 12 ->
  fetched (snd (broadcast_cycle R cy d)) = [1; 2; 3; 4; 5; 6; 7; 8; 9]
  /\ Forall (fun p => tagged_in 1 9 (snd p)) (attempts (snd (broadcast_cycle R cy d))).
Proof.
  intros Hc Hcount.
  apply (broadcast_cycle_trace cy d c 12 Hc Hcount). lia.
Qed.

End BroadcasterFacts.

Lemma broadcast_cycle_count_twelve_witness :
  fetched (snd (broadcast_cycle sample_runtime
                  (sample_cycle (Some (sample_ledger 12 (Returns sample_results_data))) [])
                  [(5%nat, true)]))
  = [1; 2; 3; 4; 5; 6; 7; 8; 9]
  /\ Forall (fun p => tagged_in 1 9 (snd p))
            (attempts (snd (broadcast_cycle sample_runtime
                              (sample_cycle (Some (sample_ledger 12 (Returns sample_results_data))) [])
                              [(5%nat, true)]))).
Proof.
  apply (broadcast_cycle_count_twelve
           sample_runtime
           (sample_cycle (Some (sample_ledger 12 (Returns sample_results_data))) [])
           [(5%nat, true)]
           (sample_ledger 12 (Returns sample_results_data))).
  - reflexivity.
  - reflexivity.
Defined.

(** C3 at count = 10: the ledger holds ten elections, the fetcher returns a
    snapshot for election 10, and the cycle stops at election 9: the slice
    [range(1, min(count + 1, 10))] holds nine ids, one short of the
    "Limit to 10 elections" its comment announces. *)
Theorem broadcast_cycle_count_ten :
  fetched (snd (broadcast_cycle sample_runtime
                  (sample_cycle (Some (sample_ledger 10 (Returns sample_results_data))) [])
                  [(5%nat, true)]))
  = [1; 2; 3; 4; 5; 6; 7; 8; 9]
  /\ py_range 1 (Z.min (10 + 1) 10) = [1; 2; 3; 4; 5; 6; 7; 8; 9]
  /\ is_ok (get_election_results sample_runtime
                                 (Some (sample_ledger 10 (Returns sample_results_data)))
                                 1714564800 10)
     = true.
Proof. repeat split. Qed.

(** ** The placeholder branch of the session

    [websocket_results] keeps a handler that would send the "Loading..."
    placeholder when the fetch raises an exception whose text has
    "underflow or overflow".  The fetcher turns every such exception into a
    returned model before it can leave [get_election_results], so the
    handler never runs. *)

Lemma contains_skip (c : ascii) (needle' hay : string) :
  c <> "u"%char ->
  contains (String "u" needle') (String c hay) = contains (String "u" needle') hay.
Proof.
  intro Hc. cbn [contains String.prefix].
  destruct (Ascii.ascii_dec "u" c) as [Heq | _]; [congruence | reflexivity].
Qed.

Lemma contains_skip_digits (needle' : string) (d : Decimal.uint) (hay : string) :
  contains (String "u" needle') (NilEmpty.string_of_uint d ++ hay)
  = contains (String "u" needle') hay.
Proof.
  induction d; cbn [NilEmpty.string_of_uint append];
    [reflexivity | rewrite contains_skip by discriminate; exact IHd ..].
Qed.

Lemma contains_skip_str_int (needle' : string) (n : Z) (hay : string) :
  contains (String "u" needle') (str_int n ++ hay) = contains (String "u" needle') hay.
Proof.
  unfold str_int, NilZero.string_of_int.
  destruct (Z.to_int n) as [d | d]; cbn [append].
  - unfold NilZero.string_of_uint.
    destruct d; try apply contains_skip_digits.
    cbn [append]. now rewrite contains_skip by discriminate.
  - rewrite contains_skip by discriminate.
    unfold NilZero.string_of_uint.
    destruct d; try apply contains_skip_digits.
    cbn [append]. now rewrite contains_skip by discriminate.
Qed.

Lemma plain_bind {A B : Type} (m : res A) (k : A -> res B) :
  plain m -> (forall a, plain (k a)) -> plain (bind m k).
Proof. destruct m as [a | e]; simpl; auto. Qed.

Lemma plain_py_index (t : list pyval) (i : nat) : plain (py_index t i).
Proof. unfold py_index. now destruct (nth_error t i). Qed.

Lemma plain_validated {A : Type} (r : string + A) : plain (validated r).
Proof. now destruct r. Qed.

Lemma plain_run {A : Type} (r : call A) : plain (run r).
Proof. now destruct r. Qed.

Lemma plain_build_election (R : Runtime) (election_data : list pyval) :
  plain (build_election R election_data).
Proof.
  unfold build_election, Election_init.
  repeat (apply plain_bind;
          [ first [ apply plain_py_index
                  | apply plain_validated
                  | match goal with
                    | |- plain (if ?b then _ else _) =>
                        destruct b; [apply plain_py_index | exact I]
                    end
                  | exact I ]
          | intro ]).
  exact I.
Qed.

(** Whatever [get_election_results] raises is an [HTTPException] whose text
    has no "underflow or overflow" in it. *)
Lemma fetch_raises_without_underflow (R : Runtime) (contract : option Contract)
      (t : datetime) (election_id : Z) (e : exn) :
  get_election_results R contract t election_id = Raise e ->
  contains "underflow or overflow" (str_exn e) = false.
Proof.
  unfold get_election_results.
  destruct (get_election_results_body R contract t election_id) as [r | e0] eqn:Hbody;
    [discriminate |].
  assert (Hother : forall text,
             contains "underflow or overflow" text = false ->
             contains "underflow or overflow" (str_exn (HTTPException 500 text)) = false).
  { intros text Htext. cbn [str_exn]. change (str_int 500) with "500".
    cbn [append]. now rewrite !contains_skip by discriminate. }
  destruct e0 as [status_code detail | | reason | msg | msg | msg];
    try (destruct (contains "underflow or overflow" _) eqn:Htext;
         [discriminate | intro H; injection H as <-; apply Hother, Htext]).
  intro H. injection H as <-.
  unfold get_election_results_body in Hbody.
  destruct contract as [c |].
  - pose proof (plain_run (electionCount c)) as Hrun.
    destruct (run (electionCount c)) as [election_count | e1]; cbn [bind] in Hbody.
    + destruct ((election_id <? 1) || (election_id >? election_count)).
      * injection Hbody as <- <-. cbn [str_exn]. change (str_int 404) with "404".
        cbn [append]. rewrite !contains_skip by discriminate.
        now rewrite contains_skip_str_int.
      * pose proof (plain_run (getElection c election_id)) as Hrun'.
        destruct (run (getElection c election_id)) as [election_data | e2];
          cbn [bind] in Hbody.
        -- pose proof (plain_build_election R election_data) as Hbuild.
           destruct (build_election R election_data) as [el | e3]; cbn [bind] in Hbody;
             [discriminate |].
           injection Hbody as ->. destruct Hbuild.
        -- injection Hbody as ->. destruct Hrun'.
    + injection Hbody as ->. destruct Hrun.
  - injection Hbody as <- <-. reflexivity.
Qed.

(** No payload a session writes carries the placeholder's [info] note. *)
Lemma session_never_sends_placeholder (R : Runtime) (w : World) (k : WebSocket)
      (election_id : Z) (d : registry) :
  Forall (fun p => json_get "info" (snd p) = None)
         (attempts (snd (session_try R w k election_id d))).
Proof.
  assert (Hspm : forall message,
             json_get "info" message = None ->
             Forall (fun p => json_get "info" (snd p) = None)
                    (attempts (snd (send_personal_message w message k d)))).
  { intros message Hm. unfold send_personal_message.
    destruct (dict_mem k d && flag k d); [| constructor].
    destruct (send_json w k message); repeat constructor; exact Hm. }
  unfold session_try.
  destruct (negb (dict_mem k d)); [constructor |].
  destruct (contract w) as [c |].
  - destruct (electionCount c) as [election_count | text]; [| constructor].
    destruct ((election_id >? 0) && (election_id <=? election_count)).
    + destruct (get_election_results R (Some c) (now w) election_id) as [results | e]
        eqn:Hfetch.
      * specialize (Hspm (results_dict R results) eq_refl).
        now destruct (send_personal_message w (results_dict R results) k d).
      * rewrite (fetch_raises_without_underflow R _ _ _ _ Hfetch). constructor.
    + specialize (Hspm (not_found_msg election_id) eq_refl).
      now destruct (send_personal_message w (not_found_msg election_id) k d).
  - specialize (Hspm (not_loaded_msg election_id) eq_refl).
    now destruct (send_personal_message w (not_loaded_msg election_id) k d).
Qed.

(** * More of the code *)

(** ** ConnectionManager: connect, disconnect, send_personal_message *)

Lemma dict_get_del_other (k k' : WebSocket) (d : registry) :
  k' <> k -> dict_get k' (dict_del k d) = dict_get k' d.
Proof.
  intro Hne. unfold dict_del. induction d as [| [k0 v0] d IH]; simpl; [reflexivity |].
  destruct (Nat.eqb_spec k0 k) as [-> | Hk]; simpl.
  - destruct (Nat.eqb_spec k k'); [congruence | exact IH].
  - now rewrite IH.
Qed.

Lemma dict_del_set_absent (k : WebSocket) (v : bool) (d : registry) :
  dict_mem k d = false -> dict_del k (dict_set k v d) = d.
Proof.
  unfold dict_mem, dict_del. induction d as [| [k0 v0] d IH]; simpl; intro H.
  - now rewrite Nat.eqb_refl.
  - apply orb_false_iff in H. destruct H as [Hk Hd].
    rewrite Hk. simpl. rewrite Hk. simpl. now rewrite (IH Hd).
Qed.

(** X1: a handle that was not registered is, after [connect], registered
    last with the flag [True]; [disconnect] then gives back the registry as
    it was before. *)
Theorem connect_then_disconnect (w : World) (k : WebSocket) (d d1 : registry) :
  connect w k d = Ok d1 ->
  dict_mem k d = false ->
  dict_get k d1 = Some true
  /\ keys d1 = keys d ++ [k]
  /\ disconnect k d1 = d.
Proof.
  unfold connect. intros H Habsent.
  destruct (accept w k); simpl in H; [| discriminate].
  injection H as <-. split; [apply dict_get_set |]. split.
  - now rewrite keys_set, Habsent.
  - rewrite disconnect_del. apply dict_del_set_absent, Habsent.
Qed.

Lemma connect_then_disconnect_witness :
  dict_get 3%nat [(1%nat, true); (2%nat, true); (3%nat, true)] = Some true
  /\ keys [(1%nat, true); (2%nat, true); (3%nat, true)] = keys [(1%nat, true); (2%nat, true)] ++ [3%nat]
  /\ disconnect 3%nat [(1%nat, true); (2%nat, true); (3%nat, true)]
     = [(1%nat, true); (2%nat, true)].
Proof.
  apply (connect_then_disconnect (sample_world None []) 3%nat
           [(1%nat, true); (2%nat, true)]
           [(1%nat, true); (2%nat, true); (3%nat, true)]).
  - reflexivity.
  - reflexivity.
Defined.

Lemma dict_set_set (k : WebSocket) (v : bool) (d : registry) :
  dict_set k v (dict_set k v d) = dict_set k v d.
Proof.
  induction d as [| [k0 v0] d IH]; simpl.
  - now rewrite Nat.eqb_refl.
  - destruct (Nat.eqb k0 k) eqn:Hk; simpl; rewrite Hk; [reflexivity | now rewrite IH].
Qed.

(** X2: connecting a handle a second time changes nothing: the registry
    after the second [connect] is the registry after the first. *)
Theorem connect_twice (w w' : World) (k : WebSocket) (d d1 d2 : registry) :
  connect w k d = Ok d1 ->
  connect w' k d1 = Ok d2 ->
  d2 = d1.
Proof.
  unfold connect. intros H1 H2.
  destruct (accept w k); simpl in H1; [| discriminate].
  destruct (accept w' k); simpl in H2; [| discriminate].
  injection H1 as <-. injection H2 as <-. apply dict_set_set.
Qed.

Lemma connect_twice_witness :
  [(1%nat, true); (2%nat, true)] = [(1%nat, true); (2%nat, true)].
Proof.
  apply (connect_twice (sample_world None []) (sample_world None []) 2%nat
           [(1%nat, true)] [(1%nat, true); (2%nat, true)] [(1%nat, true); (2%nat, true)]).
  - reflexivity.
  - reflexivity.
Defined.

(** X3: [send_personal_message] writes at most once, only to the handle it
    is given; it leaves the entry of every other handle as it was, and the
    handle itself stays registered unless it was live and the write
    raised. *)
Theorem send_personal_message_frame
        (w : World) (message : json) (k k' : WebSocket) (d : registry) :
  k' <> k ->
  dict_get k' (fst (send_personal_message w message k d)) = dict_get k' d
  /\ dict_mem k (fst (send_personal_message w message k d))
     = dict_mem k d && (negb (flag k d) || is_ok (send_json w k message))
  /\ (attempts (snd (send_personal_message w message k d)) = []
      \/ attempts (snd (send_personal_message w message k d)) = [(k, message)]).
Proof.
  intro Hne. unfold send_personal_message.
  destruct (dict_mem k d) eqn:Hmem; simpl.
  - destruct (flag k d) eqn:Hflag; simpl.
    + destruct (send_json w k message); simpl.
      * rewrite Hmem. auto.
      * rewrite disconnect_del, dict_mem_del, Nat.eqb_refl, andb_false_r.
        rewrite (dict_get_del_other k k' d Hne). auto.
    + rewrite Hmem. auto.
  - rewrite Hmem. auto.
Qed.

Lemma send_personal_message_frame_witness :
  dict_get 1%nat (fst (send_personal_message (sample_world None [2%nat]) (JStr "tick") 2%nat
                                             [(1%nat, true); (2%nat, true)]))
  = dict_get 1%nat [(1%nat, true); (2%nat, true)]
  /\ dict_mem 2%nat (fst (send_personal_message (sample_world None [2%nat]) (JStr "tick") 2%nat
                                                [(1%nat, true); (2%nat, true)]))
     = false.
Proof.
  destruct (send_personal_message_frame
              (sample_world None [2%nat]) (JStr "tick") 2%nat 1%nat
              [(1%nat, true); (2%nat, true)]) as (Hother & Hself & _).
  - discriminate.
  - split; [exact Hother | exact Hself].
Defined.

(** ** ConnectionManager: broadcast after broadcast *)

Lemma keys_filter (p : WebSocket -> bool) (d : registry) :
  keys (filter (fun kv => p (fst kv)) d) = filter p (keys d).
Proof.
  unfold keys. induction d as [| [k v] d IH]; simpl; [reflexivity |].
  destruct (p k); simpl; now rewrite IH.
Qed.

(** X4: a handle dropped by one [broadcast] is not written to by the next.
    When no other task changes the registry while the two calls are
    suspended in their sends, the first call returns and the second writes,
    in order, to exactly the handles whose write succeeded in the first. *)
Theorem broadcast_does_not_retry
        (w1 w2 : World) (meanwhile1 meanwhile2 : registry -> registry)
        (message1 message2 : json) (d d1 d2 : registry) (tr1 tr2 : trace)
        (r1 r2 : res unit) :
  meanwhile1 d = d ->
  broadcast w1 meanwhile1 message1 d = (d1, tr1, r1) ->
  meanwhile2 d1 = d1 ->
  broadcast w2 meanwhile2 message2 d1 = (d2, tr2, r2) ->
  r1 = Ok tt
  /\ map fst (attempts tr2) = filter (fun k => is_ok (send_json w1 k message1)) (keys d).
Proof.
  intros Hquiet1 H1 Hquiet2 H2.
  rewrite (broadcast_quiet w1 meanwhile1 message1 d Hquiet1) in H1.
  injection H1 as Hd1 _ Hr1. subst d1.
  rewrite (broadcast_quiet w2 meanwhile2 message2 _ Hquiet2) in H2.
  injection H2 as _ Htr2 _. subst tr2.
  split; [now symmetry |].
  rewrite attempts_sends.
  apply (keys_filter (fun k => is_ok (send_json w1 k message1))).
Qed.

Lemma broadcast_does_not_retry_witness :
  Ok tt = Ok tt
  /\ map fst (attempts [EvSend 1%nat (JStr "tock") true; EvSend 3%nat (JStr "tock") true])
     = filter (fun k => is_ok (send_json (sample_world None [2%nat]) k (JStr "tick")))
              (keys [(1%nat, true); (2%nat, true); (3%nat, true)]).
Proof.
  apply (broadcast_does_not_retry
           (sample_world None [2%nat]) (sample_world None [])
           (fun d => d) (fun d => d) (JStr "tick") (JStr "tock")
           [(1%nat, true); (2%nat, true); (3%nat, true)]
           [(1%nat, true); (3%nat, true)]
           [(1%nat, true); (3%nat, true)]
           [EvSend 1%nat (JStr "tick") true; EvSend 2%nat (JStr "tick") false;
            EvSend 3%nat (JStr "tick") true]
           [EvSend 1%nat (JStr "tock") true; EvSend 3%nat (JStr "tock") true]
           (Ok tt) (Ok tt)); reflexivity.
Defined.

(** X30: a [broadcast] during which no other task changes the registry
    returns normally; it has sent the payload once to every handle
    registered when the call started, in the order of the dict and whether
    or not an earlier send failed, and the registry it leaves holds the
    starting entries whose send succeeded and no others. *)
Theorem quiet_broadcast_delivers_then_prunes
        (w : World) (meanwhile : registry -> registry) (message : json) (d : registry) :
  dict_wf d ->
  meanwhile d = d ->
  broadcast w meanwhile message d
  = (filter (fun kv => is_ok (send_json w (fst kv) message)) d,
     map (fun ws => EvSend ws message (is_ok (send_json w ws message))) (keys d),
     Ok tt)
  /\ (forall ws, count_occ Nat.eq_dec
                   (map fst (attempts (snd (fst (broadcast w meanwhile message d))))) ws
                 = if dict_mem ws d then 1%nat else 0%nat)
  /\ (forall ws, dict_mem ws (fst (fst (broadcast w meanwhile message d)))
                 = dict_mem ws d && is_ok (send_json w ws message)).
Proof.
  intros Hwf Hquiet. rewrite (broadcast_quiet w meanwhile message d Hquiet). simpl.
  split; [reflexivity |]. split.
  - intro ws. rewrite attempts_sends, dict_mem_keys. apply count_occ_NoDup, Hwf.
  - intro ws. clear Hwf Hquiet.
    unfold dict_mem. induction d as [| [k v] d IH]; simpl; [reflexivity |].
    destruct (is_ok (send_json w k message)) eqn:Hok; simpl; rewrite IH.
    + destruct (Nat.eqb_spec k ws) as [-> | Hne]; simpl; [now rewrite Hok | reflexivity].
    + destruct (Nat.eqb_spec k ws) as [-> | Hne]; simpl; [| reflexivity].
      rewrite Hok. now rewrite andb_false_r.
Qed.

Lemma quiet_broadcast_delivers_then_prunes_witness :
  dict_wf [(1%nat, true); (2%nat, true); (3%nat, true)] /\
  broadcast (sample_world None [2%nat]) (fun d => d) (JStr "tick")
            [(1%nat, true); (2%nat, true); (3%nat, true)]
  = ([(1%nat, true); (3%nat, true)],
     [EvSend 1%nat (JStr "tick") true; EvSend 2%nat (JStr "tick") false;
      EvSend 3%nat (JStr "tick") true],
     Ok tt).
Proof.
  assert (Hwf : dict_wf [(1%nat, true); (2%nat, true); (3%nat, true)]).
  { unfold dict_wf. simpl. repeat constructor; simpl; intuition discriminate. }
  split; [exact Hwf |].
  destruct (quiet_broadcast_delivers_then_prunes
              (sample_world None [2%nat]) (fun d => d) (JStr "tick")
              [(1%nat, true); (2%nat, true); (3%nat, true)] Hwf eq_refl)
    as (Hrun & _ & _).
  rewrite Hrun. reflexivity.
Defined.

(** ** get_election_results: what it raises, what it falls back to *)



(** X6: when the count read, or the election read of an id inside the
    range, raises with "underflow or overflow" in its text,
    [get_election_results] raises nothing and returns the fallback model:
    the requested id, the name "Election", every other field zeroed, no
    candidates.  With the count read failing this holds for every id,
    whether the ledger has such an election or not. *)
Theorem fetch_underflow_fallback
        (R : Runtime) (c : Contract) (t : datetime) (election_id : Z) (text : string) :
  contains "underflow or overflow" text = true ->
  electionCount c = Fails text
  \/ (exists election_count,
         electionCount c = Returns election_count
         /\ 1 <= election_id <= election_count
         /\ getElection c election_id = Fails text) ->
  get_election_results R (Some c) t election_id = Ok (fallback_results t election_id).
Proof.
  intros Htext [Hcount | (election_count & Hcount & Hrange & Hdata)];
    unfold get_election_results, get_election_results_body; rewrite Hcount;
    cbn [run bind].
  - cbn [str_exn]. now rewrite Htext.
  - rewrite (in_range_test _ _ Hrange), Hdata. cbn [run bind str_exn].
    now rewrite Htext.
Qed.

Lemma fetch_underflow_fallback_witness :
  get_election_results sample_runtime
                       (Some (sample_ledger_count_fails underflow_panic)) 1714564800 99
  = Ok {| election := {| id := 99; name := "Election"; description := "";
                         startTime := 0; endTime := 0; isActive := false;
                         creator := ""; totalVotes := 0; candidateCount := 0;
                         status := None |};
          candidates := [];
          lastUpdate := 1714564800 |}.
Proof.
  apply (fetch_underflow_fallback sample_runtime
           (sample_ledger_count_fails underflow_panic) 1714564800 99 underflow_panic).
  - reflexivity.
  - left. reflexivity.
Defined.

(** ** get_election_results: the candidate list *)

Lemma append_candidates_good (R : Runtime) (good : list (list pyval))
      (cands : list Candidate) :
  Forall2 (fun tuple cand => build_candidate R tuple = Ok cand) good cands ->
  forall rest acc,
    append_candidates R (good ++ rest) acc = append_candidates R rest (acc ++ cands).
Proof.
  induction 1 as [| tuple cand good cands Hb _ IH]; intros rest acc; simpl.
  - now rewrite app_nil_r.
  - rewrite Hb, IH. now rewrite <- app_assoc.
Qed.

(** X7: when every tuple of the candidate read builds, the snapshot holds
    one candidate per tuple in the order the ledger returned them; nothing
    sorts them. *)
Theorem fetch_candidates_in_ledger_order
        (R : Runtime) (c : Contract) (t : datetime) (election_id election_count : Z)
        (election_data : list pyval) (e : Election)
        (results_data : list (list pyval)) (cands : list Candidate) :
  electionCount c = Returns election_count ->
  1 <= election_id <= election_count ->
  getElection c election_id = Returns election_data ->
  build_election R election_data = Ok e ->
  getElectionResults c election_id = Returns results_data ->
  Forall2 (fun tuple cand => build_candidate R tuple = Ok cand) results_data cands ->
  get_election_results R (Some c) t election_id
  = Ok {| election := e; candidates := cands; lastUpdate := t |}.
Proof.
  intros Hcount Hrange Hdata Hbuild Hres Hall.
  rewrite (fetch_in_range R c t election_id election_count election_data e)
    by assumption.
  unfold read_candidates. rewrite Hres.
  pose proof (append_candidates_good R results_data cands Hall [] []) as H.
  rewrite app_nil_r in H. rewrite H. reflexivity.
Qed.

Lemma fetch_candidates_in_ledger_order_witness :
  map voteCount sample_candidates = [3; 5]
  /\ get_election_results sample_runtime
                          (Some (sample_ledger 2 (Returns sample_results_data)))
                          1714564800 1
     = Ok {| election := sample_election 1; candidates := sample_candidates;
             lastUpdate := 1714564800 |}.
Proof.
  split; [reflexivity |].
  apply (fetch_candidates_in_ledger_order
           sample_runtime (sample_ledger 2 (Returns sample_results_data)) 1714564800 1 2
           (sample_election_data 1) (sample_election 1) sample_results_data
           sample_candidates).
  - reflexivity.
  - lia.
  - reflexivity.
  - reflexivity.
  - reflexivity.
  - repeat (apply Forall2_cons; [reflexivity |]). apply Forall2_nil.
Defined.

(** X8: a tuple of the candidate read that does not build ends the list
    without an error: the snapshot holds the candidates built before it and
    none of those after it. *)
Theorem fetch_candidates_truncated
        (R : Runtime) (c : Contract) (t : datetime) (election_id election_count : Z)
        (election_data : list pyval) (e : Election)
        (good : list (list pyval)) (bad : list pyval) (rest : list (list pyval))
        (cands : list Candidate) :
  electionCount c = Returns election_count ->
  1 <= election_id <= election_count ->
  getElection c election_id = Returns election_data ->
  build_election R election_data = Ok e ->
  getElectionResults c election_id = Returns (good ++ bad :: rest) ->
  Forall2 (fun tuple cand => build_candidate R tuple = Ok cand) good cands ->
  is_ok (build_candidate R bad) = false ->
  get_election_results R (Some c) t election_id
  = Ok {| election := e; candidates := cands; lastUpdate := t |}.
Proof.
  intros Hcount Hrange Hdata Hbuild Hres Hall Hbad.
  rewrite (fetch_in_range R c t election_id election_count election_data e)
    by assumption.
  unfold read_candidates. rewrite Hres.
  rewrite (append_candidates_good R good cands Hall (bad :: rest) []).
  cbn [append_candidates app].
  destruct (build_candidate R bad); [discriminate | reflexivity].
Qed.

Lemma fetch_candidates_truncated_witness :
  get_election_results sample_runtime
    (Some (sample_ledger 2
             (Returns ([[VInt 1; VStr "Ada"; VStr "Blue"; VInt 3; VStr ""]]
                       ++ [VInt 2; VStr "Grace"]
                       :: [[VInt 3; VStr "Edsger"; VStr "Red"; VInt 9; VStr ""]]))))
    1714564800 1
  = Ok {| election := sample_election 1;
          candidates := [{| cand_id := 1; cand_name := "Ada"; party := "Blue";
                            voteCount := 3; imageUrl := "" |}];
          lastUpdate := 1714564800 |}.
Proof.
  apply (fetch_candidates_truncated
           sample_runtime
           (sample_ledger 2
              (Returns ([[VInt 1; VStr "Ada"; VStr "Blue"; VInt 3; VStr ""]]
                        ++ [VInt 2; VStr "Grace"]
                        :: [[VInt 3; VStr "Edsger"; VStr "Red"; VInt 9; VStr ""]])))
           1714564800 1 2 (sample_election_data 1) (sample_election 1)
           [[VInt 1; VStr "Ada"; VStr "Blue"; VInt 3; VStr ""]]
           [VInt 2; VStr "Grace"]
           [[VInt 3; VStr "Edsger"; VStr "Red"; VInt 9; VStr ""]]
           [{| cand_id := 1; cand_name := "Ada"; party := "Blue";
               voteCount := 3; imageUrl := "" |}]).
  - reflexivity.
  - lia.
  - reflexivity.
  - reflexivity.
  - reflexivity.
  - apply Forall2_cons; [reflexivity | apply Forall2_nil].
  - reflexivity.
Defined.

(** ** websocket_results: what a session touches *)

Lemma send_personal_message_target (w : World) (message : json) (k : WebSocket)
      (d : registry) :
  Forall (fun p => fst p = k) (attempts (snd (send_personal_message w message k d))).
Proof.
  unfold send_personal_message.
  destruct (dict_mem k d && flag k d); [| constructor].
  destruct (send_json w k message); repeat constructor.
Qed.

Lemma send_personal_message_other (w : World) (message : json) (k k' : WebSocket)
      (d : registry) :
  k' <> k -> dict_get k' (fst (send_personal_message w message k d)) = dict_get k' d.
Proof.
  intro Hne. unfold send_personal_message.
  destruct (dict_mem k d && flag k d); [| reflexivity].
  destruct (send_json w k message); [reflexivity |].
  simpl. rewrite disconnect_del. apply dict_get_del_other, Hne.
Qed.

Lemma session_try_target (R : Runtime) (w : World) (k : WebSocket) (election_id : Z)
      (d : registry) :
  Forall (fun p => fst p = k) (attempts (snd (session_try R w k election_id d))).
Proof.
  unfold session_try.
  destruct (negb (dict_mem k d)); [constructor |].
  destruct (contract w) as [c |].
  - destruct (electionCount c) as [election_count | text]; [| constructor].
    destruct ((election_id >? 0) && (election_id <=? election_count)).
    + destruct (get_election_results R (Some c) (now w) election_id) as [results | e].
      * pose proof (send_personal_message_target w (results_dict R results) k d) as H.
        now destruct (send_personal_message w (results_dict R results) k d).
      * destruct (contains "underflow or overflow" (str_exn e)); [| constructor].
        pose proof (send_personal_message_target
                      w (empty_result R (now w) election_id) k d) as H.
        now destruct (send_personal_message w (empty_result R (now w) election_id) k d).
    + pose proof (send_personal_message_target w (not_found_msg election_id) k d) as H.
      now destruct (send_personal_message w (not_found_msg election_id) k d).
  - pose proof (send_personal_message_target w (not_loaded_msg election_id) k d) as H.
    now destruct (send_personal_message w (not_loaded_msg election_id) k d).
Qed.

Lemma attempts_after (P : WebSocket * json -> Prop) (tr : trace) (o : outcome) :
  Forall P (attempts tr) ->
  Forall P (attempts (trace_of o)) ->
  Forall P (attempts (trace_of (after tr o))).
Proof.
  intros Htr Ho. destruct o; simpl in *; try constructor;
    rewrite attempts_app; apply Forall_app; auto.
Qed.

Lemma session_loop_target (R : Runtime) (k : WebSocket) (election_id : Z)
      (schedule : list World) :
  forall d,
    Forall (fun p => fst p = k)
           (attempts (trace_of (session_loop R schedule k election_id d))).
Proof.
  induction schedule as [| w rest IH]; intro d; [constructor |].
  cbn [session_loop].
  pose proof (session_try_target R w k election_id d) as Htry.
  destruct (session_try R w k election_id d) as [[fl d1] tr]. simpl in Htry.
  destruct fl.
  - apply attempts_after; [| apply IH].
    rewrite attempts_app. apply Forall_app. split; [exact Htry | constructor].
  - exact Htry.
Qed.

(** X9: over any schedule a session writes to no handle but its own. *)
Theorem session_writes_only_to_its_handle
        (R : Runtime) (w0 : World) (schedule : list World) (k : WebSocket)
        (election_id : Z) (d : registry) :
  Forall (fun p => fst p = k)
         (attempts (trace_of (websocket_results R w0 schedule k election_id d))).
Proof.
  unfold websocket_results.
  destruct (connect w0 k d) as [d0 |]; [| constructor].
  pose proof (session_loop_target R k election_id schedule d0) as H.
  now destruct (session_loop R schedule k election_id d0).
Qed.

(** X10: one iteration of a session leaves the registry entry of every
    other handle as it found it. *)
Theorem session_try_keeps_other_entries
        (R : Runtime) (w : World) (k k' : WebSocket) (election_id : Z) (d : registry) :
  k' <> k ->
  dict_get k' (snd (fst (session_try R w k election_id d))) = dict_get k' d.
Proof.
  intro Hne. unfold session_try.
  destruct (negb (dict_mem k d)); [reflexivity |].
  destruct (contract w) as [c |].
  - destruct (electionCount c) as [election_count | text]; [| reflexivity].
    destruct ((election_id >? 0) && (election_id <=? election_count)).
    + destruct (get_election_results R (Some c) (now w) election_id) as [results | e].
      * pose proof (send_personal_message_other w (results_dict R results) k k' d Hne) as H.
        now destruct (send_personal_message w (results_dict R results) k d).
      * destruct (contains "underflow or overflow" (str_exn e)); [| reflexivity].
        pose proof (send_personal_message_other
                      w (empty_result R (now w) election_id) k k' d Hne) as H.
        now destruct (send_personal_message w (empty_result R (now w) election_id) k d).
    + pose proof (send_personal_message_other w (not_found_msg election_id) k k' d Hne) as H.
      now destruct (send_personal_message w (not_found_msg election_id) k d).
  - pose proof (send_personal_message_other w (not_loaded_msg election_id) k k' d Hne) as H.
    now destruct (send_personal_message w (not_loaded_msg election_id) k d).
Qed.

Lemma session_try_keeps_other_entries_witness :
  dict_get 4%nat
           (snd (fst (session_try sample_runtime
                        (sample_world (Some (sample_ledger 2 (Returns sample_results_data)))
                                      [5%nat])
                        5%nat 1 [(4%nat, true); (5%nat, true)])))
  = dict_get 4%nat [(4%nat, true); (5%nat, true)].
Proof.
  apply (session_try_keeps_other_entries
           sample_runtime
           (sample_world (Some (sample_ledger 2 (Returns sample_results_data))) [5%nat])
           5%nat 4%nat 1 [(4%nat, true); (5%nat, true)]).
  discriminate.
Defined.

(** ** websocket_results: failures inside an iteration *)

(** X11: when the election read of an id inside the range fails with a text
    that has no "underflow or overflow", the iteration fetches, writes
    nothing, leaves the registry alone and goes on to its sleep. *)
Theorem session_silent_on_read_failure
        (R : Runtime) (w : World) (k : WebSocket) (election_id election_count : Z)
        (d : registry) (c : Contract) (text : string) :
  contract w = Some c ->
  electionCount c = Returns election_count ->
  1 <= election_id <= election_count ->
  getElection c election_id = Fails text ->
  contains "underflow or overflow" text = false ->
  dict_mem k d = true ->
  session_try R w k election_id d = (Next, d, [EvFetch election_id]).
Proof.
  intros Hc Hcount Hrange Hdata Htext Hmem.
  assert (Hfetch : get_election_results R (Some c) (now w) election_id
                   = Raise (HTTPException 500 text)).
  { unfold get_election_results, get_election_results_body.
    rewrite Hcount. cbn [run bind].
    rewrite (in_range_test _ _ Hrange), Hdata. cbn [run bind str_exn].
    now rewrite Htext. }
  rewrite (session_try_in_range R w k election_id election_count d c Hc Hcount Hrange Hmem).
  rewrite Hfetch.
  now rewrite (fetch_raises_without_underflow R _ _ _ _ Hfetch).
Qed.

Lemma session_silent_on_read_failure_witness :
  session_try sample_runtime
              (sample_world (Some (sample_ledger_election_fails 2 revert_error)) [])
              5%nat 1 [(5%nat, true)]
  = (Next, [(5%nat, true)], [EvFetch 1]).
Proof.
  apply (session_silent_on_read_failure
           sample_runtime
           (sample_world (Some (sample_ledger_election_fails 2 revert_error)) [])
           5%nat 1 2 [(5%nat, true)]
           (sample_ledger_election_fails 2 revert_error) revert_error).
  - reflexivity.
  - reflexivity.
  - lia.
  - reflexivity.
  - reflexivity.
  - reflexivity.
Defined.

(** X12: a session whose snapshot write raises is over one iteration later:
    the failed write unregisters the handle, the sleep follows, and the
    next iteration leaves the loop before any fetch or write, whatever the
    rest of the schedule holds. *)
Theorem write_failure_ends_session
        (R : Runtime) (w0 w1 w2 : World) (rest : list World) (k : WebSocket)
        (election_id election_count : Z) (d : registry) (c : Contract)
        (r : ElectionResults) :
  accept w0 k = Ok tt ->
  contract w1 = Some c ->
  electionCount c = Returns election_count ->
  1 <= election_id <= election_count ->
  get_election_results R (Some c) (now w1) election_id = Ok r ->
  is_ok (send_json w1 k (results_dict R r)) = false ->
  dict_mem k (others w1 (disconnect k (dict_set k true d))) = false ->
  websocket_results R w0 (w1 :: w2 :: rest) k election_id d
  = Exited (others w1 (disconnect k (dict_set k true d)))
           [EvFetch election_id; EvSend k (results_dict R r) false; EvSleep 2.5%Q].
Proof.
  intros Haccept Hc Hcount Hrange Hfetch Hsend Hgone.
  unfold websocket_results. rewrite (connect_accepted _ _ _ Haccept).
  cbn [session_loop].
  rewrite (session_try_in_range R w1 k election_id election_count _ c Hc Hcount Hrange).
  2: { apply (dict_get_mem _ _ true), dict_get_set. }
  rewrite Hfetch.
  rewrite (send_personal_message_live w1 _ k _ (dict_get_set k true d)).
  rewrite Hsend. cbn [fst snd].
  unfold session_try at 1. rewrite Hgone. cbn [negb after app].
  now rewrite (disconnect_absent _ _ Hgone).
Qed.

Lemma write_failure_ends_session_witness :
  websocket_results sample_runtime
                    (sample_world (Some (sample_ledger 2 (Returns sample_results_data)))
                                  [5%nat])
                    [sample_world (Some (sample_ledger 2 (Returns sample_results_data)))
                                  [5%nat];
                     sample_world (Some (sample_ledger 2 (Returns sample_results_data)))
                                  []]
                    5%nat 1 [(4%nat, true)]
  = Exited [(4%nat, true)]
           [EvFetch 1;
            EvSend 5%nat
                   (results_dict sample_runtime
                                 {| election := sample_election 1;
                                    candidates := sample_candidates;
                                    lastUpdate := 1714564800 |})
                   false;
            EvSleep 2.5%Q].
Proof.
  apply (write_failure_ends_session
           sample_runtime
           (sample_world (Some (sample_ledger 2 (Returns sample_results_data))) [5%nat])
           (sample_world (Some (sample_ledger 2 (Returns sample_results_data))) [5%nat])
           (sample_world (Some (sample_ledger 2 (Returns sample_results_data))) [])
           [] 5%nat 1 2 [(4%nat, true)]
           (sample_ledger 2 (Returns sample_results_data))
           {| election := sample_election 1; candidates := sample_candidates;
              lastUpdate := 1714564800 |}).
  - reflexivity.
  - reflexivity.
  - reflexivity.
  - lia.
  - reflexivity.
  - reflexivity.
  - reflexivity.
Defined.

(** X13: while no contract is loaded a session does not end: every
    iteration writes the "Contract not loaded" payload, fetches nothing and
    sleeps. *)
Theorem session_without_contract_keeps_reporting
        (R : Runtime) (w0 : World) (schedule : list World) (k : WebSocket)
        (election_id : Z) (d : registry) :
  accept w0 k = Ok tt ->
  Forall (fun w => contract w = None
                   /\ (forall message, is_ok (send_json w k message) = true)
                   /\ (forall d', dict_get k (others w d') = dict_get k d'))
         schedule ->
  exists d',
    websocket_results R w0 schedule k election_id d
    = Running d' (flat_map (fun _ => [EvSend k (not_loaded_msg election_id) true;
                                      EvSleep 2.5%Q])
                           schedule).
Proof.
  intros Haccept Hall. unfold websocket_results.
  rewrite (connect_accepted _ _ _ Haccept).
  assert (Hloop : forall d0,
             dict_get k d0 = Some true ->
             exists d',
               session_loop R schedule k election_id d0
               = Running d' (flat_map (fun _ => [EvSend k (not_loaded_msg election_id) true;
                                                 EvSleep 2.5%Q])
                                      schedule)).
  { induction Hall as [| w rest (Hc & Hsend & Hothers) _ IH]; intros d0 Hget.
    - exists d0. reflexivity.
    - cbn [session_loop flat_map]. unfold session_try.
      rewrite (dict_get_mem _ _ _ Hget), Hc. cbn [negb].
      rewrite (send_personal_message_live w _ k d0 Hget), Hsend.
      destruct (IH (others w d0)) as (d' & Hrest); [now rewrite Hothers |].
      exists d'. now rewrite Hrest. }
  destruct (Hloop (dict_set k true d) (dict_get_set k true d)) as (d' & H).
  exists d'. now rewrite H.
Qed.

Lemma session_without_contract_keeps_reporting_witness :
  exists d',
    websocket_results sample_runtime (sample_world None [])
                      [sample_world None []; sample_world None []; sample_world None []]
                      5%nat 1 []
    = Running d' [EvSend 5%nat (not_loaded_msg 1) true; EvSleep 2.5%Q;
                  EvSend 5%nat (not_loaded_msg 1) true; EvSleep 2.5%Q;
                  EvSend 5%nat (not_loaded_msg 1) true; EvSleep 2.5%Q].
Proof.
  apply (session_without_contract_keeps_reporting
           sample_runtime (sample_world None [])
           [sample_world None []; sample_world None []; sample_world None []]
           5%nat 1 []).
  - reflexivity.
  - repeat (apply Forall_cons; [repeat split |]). apply Forall_nil.
Defined.

(** ** broadcast_results: which elections, which handles *)

Lemma py_range_from_one (n : Z) :
  py_range 1 (n + 1) = map Z.of_nat (seq 1 (Z.to_nat n)).
Proof.
  unfold py_range. replace (n + 1 - 1) with n by lia.
  rewrite <- seq_shift, map_map. apply map_ext. intro k. lia.
Qed.

(** X14: a cycle over a loaded contract that reports a positive count
    fetches the elections 1, 2, ... up to the count or up to 9, whichever is
    smaller, each once and in that order. *)
Theorem broadcast_cycle_range
        (R : Runtime) (cy : Cycle) (d : registry) (c : Contract) (election_count : Z) :
  contract (at_start cy) = Some c ->
  electionCount c = Returns election_count ->
  election_count > 0 ->
  fetched (snd (broadcast_cycle R cy d))
  = map Z.of_nat (seq 1 (Z.to_nat (Z.min election_count 9)))
  /\ (forall i, In i (fetched (snd (broadcast_cycle R cy d)))
                <-> 1 <= i <= election_count /\ i <= 9).
Proof.
  intros Hc Hcount Hpos.
  destruct (broadcast_cycle_trace R cy d c election_count Hc Hcount Hpos) as [Hf _].
  rewrite Hf. split.
  - replace (Z.min (election_count + 1) 10) with (Z.min election_count 9 + 1) by lia.
    apply py_range_from_one.
  - intro i. rewrite py_range_In. lia.
Qed.

Lemma broadcast_cycle_range_witness :
  fetched (snd (broadcast_cycle sample_runtime
                  (sample_cycle (Some (sample_ledger 3 (Returns sample_results_data))) [])
                  [(5%nat, true)]))
  = [1; 2; 3]
  /\ (forall i, In i (fetched (snd (broadcast_cycle sample_runtime
                                      (sample_cycle
                                         (Some (sample_ledger 3 (Returns sample_results_data)))
                                         [])
                                      [(5%nat, true)])))
                <-> 1 <= i <= 3 /\ i <= 9).
Proof.
  apply (broadcast_cycle_range
           sample_runtime
           (sample_cycle (Some (sample_ledger 3 (Returns sample_results_data))) [])
           [(5%nat, true)]
           (sample_ledger 3 (Returns sample_results_data)) 3).
  - reflexivity.
  - reflexivity.
  - lia.
Defined.

(** X15: a cycle has nothing to fetch and nothing to write when no contract
    is loaded, when the count read raises, or when the count is not
    positive; it sleeps 5 in the first case and 3 in the other two. *)
Theorem broadcast_cycle_idle (R : Runtime) (cy : Cycle) (d : registry) :
  contract (at_start cy) = None
  \/ (exists c, contract (at_start cy) = Some c
                /\ ((exists text, electionCount c = Fails text)
                    \/ (exists election_count,
                           electionCount c = Returns election_count
                           /\ election_count <= 0))) ->
  broadcast_cycle R cy d
  = (others (at_start cy) d,
     [EvSleep (match contract (at_start cy) with
               | None => 5%Q
               | Some _ => 3%Q
               end)]).
Proof.
  unfold broadcast_cycle.
  intros [Hnone | (c & Hc & [(text & Hcount) | (election_count & Hcount & Hle)])].
  - now rewrite Hnone.
  - now rewrite Hc, Hcount.
  - rewrite Hc, Hcount.
    destruct (Z.gtb_spec election_count 0); [lia | reflexivity].
Qed.

Lemma broadcast_cycle_idle_witness :
  broadcast_cycle sample_runtime (sample_cycle (Some silent_ledger) []) [(5%nat, true)]
  = ([(5%nat, true)], [EvSleep 3%Q]).
Proof.
  apply (broadcast_cycle_idle sample_runtime (sample_cycle (Some silent_ledger) [])
           [(5%nat, true)]).
  right. exists silent_ledger. split; [reflexivity |].
  left. exists revert_error. reflexivity.
Defined.

Lemma dict_get_filter_key (p : WebSocket -> bool) (k : WebSocket) (d : registry) :
  dict_get k (filter (fun kv => p (fst kv)) d) = if p k then dict_get k d else None.
Proof.
  induction d as [| [k0 v0] d IH]; simpl.
  - now destruct (p k).
  - destruct (p k0) eqn:Hp0; simpl.
    + destruct (Nat.eqb_spec k0 k) as [-> | Hne]; [now rewrite Hp0 | exact IH].
    + rewrite IH. destruct (Nat.eqb_spec k0 k) as [-> | Hne]; [now rewrite Hp0 | reflexivity].
Qed.

Lemma broadcast_sends_keeps_healthy (w : World) (meanwhile : registry -> registry)
      (message : json) (k : WebSocket) (size : nat) :
  is_ok (send_json w k message) = true ->
  (forall d', dict_get k (meanwhile d') = dict_get k d') ->
  forall remaining d,
    dict_get k (fst (fst (broadcast_sends w meanwhile message size remaining d)))
    = dict_get k d
    /\ forall disconnected,
         snd (fst (broadcast_sends w meanwhile message size remaining d))
         = Some disconnected ->
         existsb (Nat.eqb k) disconnected = false.
Proof.
  intros Hok Hmean.
  induction remaining as [| r IH]; intro d; rewrite broadcast_sends_eq;
    destruct (negb (length d =? size)%nat); simpl;
    try (split; [reflexivity | intros l Hl; try discriminate; now inversion Hl]).
  destruct (nth_error (keys d) (size - S r)) as [ws |]; simpl;
    [| split; [reflexivity | intros l Hl; now inversion Hl]].
  destruct (IH (meanwhile d)) as [Hget Hdisc].
  destruct (broadcast_sends w meanwhile message size r (meanwhile d)) as [[d' disc] tr].
  simpl in *. rewrite Hmean in Hget.
  destruct (send_json w ws message) eqn:Hws; simpl; (split; [exact Hget |]).
  - exact Hdisc.
  - intros l Hl. destruct disc as [l0 |]; simpl in Hl; [| discriminate].
    inversion Hl; subst l. simpl. rewrite (Hdisc l0 eq_refl), orb_false_r.
    destruct (Nat.eqb_spec k ws) as [-> | Hne]; [| reflexivity].
    rewrite Hws in Hok. discriminate.
Qed.

(** A handle whose write succeeds and whose entry the other tasks leave
    alone keeps its entry through a [broadcast], whether the call returns
    or raises. *)
Lemma broadcast_keeps_healthy (w : World) (meanwhile : registry -> registry)
      (message : json) (k : WebSocket) (d : registry) :
  is_ok (send_json w k message) = true ->
  (forall d', dict_get k (meanwhile d') = dict_get k d') ->
  dict_get k (fst (fst (broadcast w meanwhile message d))) = dict_get k d.
Proof.
  intros Hok Hmean. unfold broadcast.
  destruct (broadcast_sends_keeps_healthy w meanwhile message k (length d) Hok Hmean
              (length d) d) as [Hget Hdisc].
  destruct (broadcast_sends w meanwhile message (length d) (length d) d)
    as [[d' [disconnected |]] tr]; simpl in *; [| exact Hget].
  rewrite prune_filter.
  rewrite (dict_get_filter_key (fun k0 => negb (existsb (Nat.eqb k0) disconnected)) k d').
  now rewrite (Hdisc disconnected eq_refl).
Qed.

Lemma broadcast_elections_keeps_healthy (R : Runtime) (at_election : Z -> World)
      (meanwhile : registry -> registry) (k : WebSocket) (ids : list Z) :
  (forall i message, is_ok (send_json (at_election i) k message) = true) ->
  (forall d', dict_get k (meanwhile d') = dict_get k d') ->
  forall d,
    dict_get k (fst (broadcast_elections R at_election meanwhile ids d)) = dict_get k d.
Proof.
  intros Hok Hmean. induction ids as [| election_id rest IH]; intro d; simpl;
    [reflexivity |].
  assert (Hone : dict_get k (fst (broadcast_one R (at_election election_id) meanwhile
                                                election_id d))
                 = dict_get k d).
  { unfold broadcast_one.
    destruct (get_election_results R (contract (at_election election_id))
                                   (now (at_election election_id)) election_id)
      as [results | e]; [| reflexivity].
    match goal with
    | |- context [broadcast ?w meanwhile ?m d] =>
        pose proof (broadcast_keeps_healthy w meanwhile m k d (Hok election_id m) Hmean)
          as H;
        destruct (broadcast w meanwhile m d) as [[d' tr] r]
    end.
    exact H. }
  destruct (broadcast_one R (at_election election_id) meanwhile election_id d)
    as [d1 tr1].
  specialize (IH d1).
  destruct (broadcast_elections R at_election meanwhile rest d1) as [d2 tr2].
  simpl in *. now rewrite IH.
Qed.

(** X16: the broadcaster does not drop a subscriber whose writes succeed:
    if every write to a handle succeeds during a cycle and no other task
    touches its entry while the cycle is suspended, the entry after the
    cycle is the entry before it, whatever happens to the other handles
    and whether or not a broadcast of the cycle raises. *)
Theorem broadcaster_keeps_healthy_handle
        (R : Runtime) (cy : Cycle) (d : registry) (k : WebSocket) :
  (forall i message, is_ok (send_json (at_election cy i) k message) = true) ->
  (forall d', dict_get k (others (at_start cy) d') = dict_get k d') ->
  dict_get k (fst (broadcast_cycle R cy d)) = dict_get k d.
Proof.
  intros Hok Hothers. unfold broadcast_cycle.
  destruct (contract (at_start cy)) as [c |]; [| apply Hothers].
  destruct (electionCount c) as [election_count | text]; [| apply Hothers].
  destruct (election_count >? 0); [| apply Hothers].
  pose proof (broadcast_elections_keeps_healthy
                R (at_election cy) (others (at_start cy)) k
                (py_range 1 (Z.min (election_count + 1) 10)) Hok Hothers d)
    as H.
  destruct (broadcast_elections R (at_election cy) (others (at_start cy))
              (py_range 1 (Z.min (election_count + 1) 10)) d) as [d1 tr1].
  simpl in *. now rewrite Hothers.
Qed.

Lemma broadcaster_keeps_healthy_handle_witness :
  dict_get 5%nat
           (fst (broadcast_cycle sample_runtime
                   (sample_cycle (Some (sample_ledger 3 (Returns sample_results_data)))
                                 [4%nat])
                   [(4%nat, true); (5%nat, true)]))
  = dict_get 5%nat [(4%nat, true); (5%nat, true)].
Proof.
  apply (broadcaster_keeps_healthy_handle
           sample_runtime
           (sample_cycle (Some (sample_ledger 3 (Returns sample_results_data))) [4%nat])
           [(4%nat, true); (5%nat, true)] 5%nat).
  - reflexivity.
  - reflexivity.
Defined.

(** ** get_elections and get_election *)

Section ElectionEndpointFacts.

Variable R : Runtime.

Lemma collect_elections_spec (c : Contract) (ids : list Z) :
  forall elections,
    collect_elections R c ids elections
    = elections ++ flat_map (fun i => match election_with_status R c i with
                                      | Ok e => [e]
                                      | Raise _ => []
                                      end) ids.
Proof.
  induction ids as [| i rest IH]; intro elections; simpl.
  - now rewrite app_nil_r.
  - destruct (election_with_status R c i) as [e | err]; rewrite IH.
    + now rewrite <- app_assoc.
    + reflexivity.
Qed.

Lemma flat_map_length_le {A B : Type} (f : A -> list B) (l : list A) :
  (forall a, (length (f a) <= 1)%nat) ->
  (length (flat_map f l) <= length l)%nat.
Proof.
  intro Hf. induction l as [| a l IH]; simpl; [lia |].
  rewrite length_app. specialize (Hf a). lia.
Qed.

Lemma Election_init_with_status (a0 a1 a2 a3 a4 a5 a6 a7 a8 : pyval)
      (label : string) (e : Election) :
  Election_init R a0 a1 a2 a3 a4 a5 a6 a7 a8 (Some (VStr label)) = Ok e ->
  exists s, validate_str R (VStr label) = inr s
            /\ status e = Some s
            /\ Election_init R a0 a1 a2 a3 a4 a5 a6 a7 a8 None = Ok (without_status e).
Proof.
  unfold Election_init.
  destruct (validate_int R a0); cbn [validated bind]; [discriminate |].
  destruct (validate_str R a1); cbn [validated bind]; [discriminate |].
  destruct (validate_str R a2); cbn [validated bind]; [discriminate |].
  destruct (validate_int R a3); cbn [validated bind]; [discriminate |].
  destruct (validate_int R a4); cbn [validated bind]; [discriminate |].
  destruct (validate_bool R a5); cbn [validated bind]; [discriminate |].
  destruct (validate_str R a6); cbn [validated bind]; [discriminate |].
  destruct (validate_int R a7); cbn [validated bind]; [discriminate |].
  destruct (validate_int R a8); cbn [validated bind]; [discriminate |].
  destruct (validate_str R (VStr label)) as [msg | checked]; cbn [validated bind];
    [discriminate |].
  intro H. injection H as <-. exists checked. repeat split.
Qed.

(** What a successful [election_with_status] went through. *)
Lemma election_with_status_inv (c : Contract) (i : Z) (e : Election) :
  election_with_status R c i = Ok e ->
  exists election_data label a0 a1 a2 a3 a4 a5 a6 a7 a8,
    getElection c i = Returns election_data
    /\ getElectionStatus c i = Returns label
    /\ py_index election_data 0 = Ok a0 /\ py_index election_data 1 = Ok a1
    /\ py_index election_data 2 = Ok a2 /\ py_index election_data 3 = Ok a3
    /\ py_index election_data 4 = Ok a4 /\ py_index election_data 5 = Ok a5
    /\ py_index election_data 6 = Ok a6 /\ py_index election_data 7 = Ok a7
    /\ py_index election_data 8 = Ok a8
    /\ Election_init R a0 a1 a2 a3 a4 a5 a6 a7 a8 (Some (VStr label)) = Ok e.
Proof.
  unfold election_with_status.
  destruct (getElection c i) as [election_data | text]; cbn [run bind]; [| discriminate].
  destruct (getElectionStatus c i) as [label | text]; cbn [run bind]; [| discriminate].
  destruct (py_index election_data 0) as [a0 |] eqn:H0; cbn [bind]; [| discriminate].
  destruct (py_index election_data 1) as [a1 |] eqn:H1; cbn [bind]; [| discriminate].
  destruct (py_index election_data 2) as [a2 |] eqn:H2; cbn [bind]; [| discriminate].
  destruct (py_index election_data 3) as [a3 |] eqn:H3; cbn [bind]; [| discriminate].
  destruct (py_index election_data 4) as [a4 |] eqn:H4; cbn [bind]; [| discriminate].
  destruct (py_index election_data 5) as [a5 |] eqn:H5; cbn [bind]; [| discriminate].
  destruct (py_index election_data 6) as [a6 |] eqn:H6; cbn [bind]; [| discriminate].
  destruct (py_index election_data 7) as [a7 |] eqn:H7; cbn [bind]; [| discriminate].
  destruct (py_index election_data 8) as [a8 |] eqn:H8; cbn [bind]; [| discriminate].
  intro H. exists election_data, label, a0, a1, a2, a3, a4, a5, a6, a7, a8.
  repeat (split; [assumption || reflexivity |]). exact H.
Qed.

(** X17: with the count read, [get_elections] returns exactly the elections
    of 1..count whose reads and model build, in increasing order of id; an
    election that fails is left out without hiding the others, and the list
    is never longer than the count. *)
Theorem get_elections_lists_what_builds (c : Contract) (election_count : Z) :
  electionCount c = Returns election_count ->
  get_elections R (Some c)
  = flat_map (fun i => match election_with_status R c i with
                       | Ok e => [e]
                       | Raise _ => []
                       end)
             (map Z.of_nat (seq 1 (Z.to_nat election_count)))
  /\ (forall e, In e (get_elections R (Some c))
                <-> exists i, 1 <= i <= election_count
                              /\ election_with_status R c i = Ok e)
  /\ (length (get_elections R (Some c)) <= Z.to_nat election_count)%nat.
Proof.
  intro Hcount. unfold get_elections. rewrite Hcount, collect_elections_spec.
  cbn [app]. split; [| split].
  - now rewrite py_range_from_one.
  - intro e. rewrite in_flat_map. split.
    + intros (i & Hi & He). exists i. apply py_range_In in Hi. split; [lia |].
      destruct (election_with_status R c i) as [e' | err]; [| destruct He].
      destruct He as [-> | []]. reflexivity.
    + intros (i & Hi & He). exists i. split; [apply py_range_In; lia |].
      rewrite He. now left.
  - eapply Nat.le_trans.
    + apply flat_map_length_le. intro i.
      destruct (election_with_status R c i); simpl; lia.
    + rewrite py_range_from_one, length_map, length_seq. lia.
Qed.

(** X18: every election [get_elections] returns carries a status. *)
Theorem get_elections_statuses (contract : option Contract) :
  Forall (fun e => exists s, status e = Some s) (get_elections R contract).
Proof.
  unfold get_elections. destruct contract as [c |]; [| constructor].
  destruct (electionCount c) as [election_count | text]; [| constructor].
  rewrite collect_elections_spec. cbn [app].
  apply Forall_forall. intros e He. apply in_flat_map in He.
  destruct He as (i & _ & He).
  destruct (election_with_status R c i) as [e' | err] eqn:Hews; [| destruct He].
  destruct He as [-> | []].
  destruct (election_with_status_inv c i e Hews)
    as (election_data & label & a0 & a1 & a2 & a3 & a4 & a5 & a6 & a7 & a8 & H).
  destruct H as (_ & _ & _ & _ & _ & _ & _ & _ & _ & _ & _ & Hinit).
  destruct (Election_init_with_status _ _ _ _ _ _ _ _ _ _ _ Hinit) as (s & _ & Hs & _).
  now exists s.
Qed.

(** X19: the election [get_election] returns has as its status the label
    the ledger gives for that id, as validated for the model. *)
Theorem get_election_status_is_ledger_label
        (contract : option Contract) (election_id : Z) (e : Election) :
  get_election R contract election_id = Ok e ->
  exists c label s,
    contract = Some c
    /\ getElectionStatus c election_id = Returns label
    /\ validate_str R (VStr label) = inr s
    /\ status e = Some s.
Proof.
  unfold get_election, wrap_500, functions.
  destruct contract as [c |]; cbn [bind]; [| discriminate].
  destruct (election_with_status R c election_id) as [e' | err] eqn:Hews;
    [| discriminate].
  intro H. injection H as <-.
  destruct (election_with_status_inv c election_id e' Hews)
    as (election_data & label & a0 & a1 & a2 & a3 & a4 & a5 & a6 & a7 & a8 & H).
  destruct H as (_ & Hlabel & _ & _ & _ & _ & _ & _ & _ & _ & _ & Hinit).
  destruct (Election_init_with_status _ _ _ _ _ _ _ _ _ _ _ Hinit) as (s & Hv & Hs & _).
  exists c, label, s. auto.
Qed.

Lemma py_index_len (t : list pyval) (i : nat) (v : pyval) :
  py_index t i = Ok v -> (Z.of_nat i <? py_len t) = true.
Proof.
  unfold py_index, py_len. destruct (nth_error t i) eqn:Hnth; [| discriminate].
  intros _. apply Z.ltb_lt.
  assert (i < length t)%nat by (apply nth_error_Some; congruence). lia.
Qed.

(** X20: for an id inside the range, whenever [get_election] returns an
    election, [get_election_results] returns a snapshot with the same
    election fields, only with the status taken out. *)
Theorem get_election_agrees_with_results
        (c : Contract) (t : datetime) (election_id election_count : Z) (e : Election) :
  electionCount c = Returns election_count ->
  1 <= election_id <= election_count ->
  get_election R (Some c) election_id = Ok e ->
  exists r, get_election_results R (Some c) t election_id = Ok r
            /\ election r = without_status e.
Proof.
  intros Hcount Hrange. unfold get_election, wrap_500, functions. cbn [bind].
  destruct (election_with_status R c election_id) as [e' | err] eqn:Hews;
    [| discriminate].
  intro H. injection H as <-.
  destruct (election_with_status_inv c election_id e' Hews)
    as (election_data & label & a0 & a1 & a2 & a3 & a4 & a5 & a6 & a7 & a8 & H).
  destruct H as (Hdata & _ & H0 & H1 & H2 & H3 & H4 & H5 & H6 & H7 & H8 & Hinit).
  destruct (Election_init_with_status _ _ _ _ _ _ _ _ _ _ _ Hinit) as (s & _ & _ & Hnone).
  assert (Hbuild : build_election R election_data = Ok (without_status e')).
  { unfold build_election. rewrite H0, H1, H2, H3, H4, H5, H6. cbn [bind].
    assert (H7' : (7 <? py_len election_data) = true)
      by apply (py_index_len election_data 7%nat a7 H7).
    assert (H8' : (8 <? py_len election_data) = true)
      by apply (py_index_len election_data 8%nat a8 H8).
    rewrite H7', H7, H8', H8. cbn [bind]. exact Hnone. }
  eexists. split.
  - apply (fetch_in_range R c t election_id election_count election_data
             (without_status e') Hcount Hrange Hdata Hbuild).
  - reflexivity.
Qed.

(** ** get_candidates *)

Lemma all_candidates_ok (candidates_data : list (list pyval)) :
  forall acc cs,
    all_candidates R candidates_data acc = Ok cs
    <-> exists cands,
        Forall2 (fun tuple cand => build_candidate_strict R tuple = Ok cand)
                candidates_data cands
        /\ cs = acc ++ cands.
Proof.
  induction candidates_data as [| tuple rest IH]; intros acc cs; simpl.
  - split.
    + intro H. injection H as <-. exists []. split; [constructor | now rewrite app_nil_r].
    + intros (cands & Hall & ->). inversion Hall. now rewrite app_nil_r.
  - split.
    + destruct (build_candidate_strict R tuple) as [c |] eqn:Hb; cbn [bind];
        [| discriminate].
      intro H. apply IH in H. destruct H as (cands & Hall & ->).
      exists (c :: cands). split; [now constructor | now rewrite <- app_assoc].
    + intros (cands & Hall & ->). inversion Hall as [| ? c ? cands' Hb Hrest]; subst.
      rewrite Hb. cbn [bind]. apply IH. exists cands'.
      split; [exact Hrest | now rewrite <- app_assoc].
Qed.

Lemma all_candidates_raise (candidates_data : list (list pyval)) :
  forall acc e,
    all_candidates R candidates_data acc = Raise e ->
    Exists (fun tuple => is_ok (build_candidate_strict R tuple) = false) candidates_data.
Proof.
  induction candidates_data as [| tuple rest IH]; intros acc e; simpl; [discriminate |].
  destruct (build_candidate_strict R tuple) as [c |] eqn:Hb; cbn [bind].
  - intro H. apply Exists_cons_tl. apply (IH _ _ H).
  - intros _. apply Exists_cons_hd. now rewrite Hb.
Qed.

(** X21: [get_candidates] is all or nothing: it returns one candidate per
    tuple of the ledger's list, in the ledger's order, exactly when every
    tuple builds; as soon as one does not, the answer is a 500 and no
    partial list. *)
Theorem get_candidates_all_or_nothing
        (c : VotingContract) (election_id : Z) (candidates_data : list (list pyval)) :
  getAllCandidates c election_id = Returns candidates_data ->
  (forall cs,
      get_candidates R (Some c) election_id = Ok cs
      <-> Forall2 (fun tuple cand => build_candidate_strict R tuple = Ok cand)
                  candidates_data cs)
  /\ (forall e,
         get_candidates R (Some c) election_id = Raise e ->
         (exists detail, e = HTTPException 500 detail)
         /\ Exists (fun tuple => is_ok (build_candidate_strict R tuple) = false)
                   candidates_data).
Proof.
  intro Hdata. unfold get_candidates, functions. cbn [bind]. rewrite Hdata.
  cbn [run bind]. split.
  - intro cs. unfold wrap_500.
    destruct (all_candidates R candidates_data []) as [cs' | err] eqn:Hall.
    + apply all_candidates_ok in Hall. destruct Hall as (cands & Hall & ->).
      cbn [app]. split.
      * intro H. injection H as <-. exact Hall.
      * intro H. f_equal.
        clear -Hall H. revert cs H.
        induction Hall as [| tuple cand rest cands Hb _ IH]; intros cs H;
          inversion H as [| ? cand' ? cs' Hb' Hrest]; subst; [reflexivity |].
        rewrite Hb in Hb'. injection Hb' as <-. f_equal. apply IH, Hrest.
    + split; [discriminate |].
      intro H. assert (Hok : all_candidates R candidates_data [] = Ok ([] ++ cs))
        by (apply all_candidates_ok; now exists cs).
      rewrite Hall in Hok. discriminate.
  - intros e. unfold wrap_500.
    destruct (all_candidates R candidates_data []) as [cs' | err] eqn:Hall;
      [discriminate |].
    intro H. injection H as <-. split; [now eexists |].
    apply (all_candidates_raise _ _ _ Hall).
Qed.

End ElectionEndpointFacts.

Lemma get_elections_lists_what_builds_witness :
  get_elections sample_runtime (Some (sample_ledger_short_second 3))
  = flat_map (fun i => match election_with_status sample_runtime
                                                  (sample_ledger_short_second 3) i with
                       | Ok e => [e]
                       | Raise _ => []
                       end)
             (map Z.of_nat (seq 1 (Z.to_nat 3)))
  /\ (forall e, In e (get_elections sample_runtime (Some (sample_ledger_short_second 3)))
                <-> exists i, 1 <= i <= 3
                              /\ election_with_status sample_runtime
                                                      (sample_ledger_short_second 3) i
                                 = Ok e)
  /\ (length (get_elections sample_runtime (Some (sample_ledger_short_second 3)))
      <= Z.to_nat 3)%nat.
Proof.
  apply (get_elections_lists_what_builds sample_runtime (sample_ledger_short_second 3) 3).
  reflexivity.
Defined.

(** Elections 1 and 3 are listed, election 2 with its short record is
    not. *)
Example get_elections_skips_short_record :
  map id (get_elections sample_runtime (Some (sample_ledger_short_second 3))) = [1; 3]
  /\ map status (get_elections sample_runtime (Some (sample_ledger_short_second 3)))
     = [Some "Active"; Some "Active"].
Proof. split; reflexivity. Qed.

Lemma get_election_status_is_ledger_label_witness :
  exists c label s,
    Some (sample_ledger 2 (Returns sample_results_data)) = Some c
    /\ getElectionStatus c 1 = Returns label
    /\ validate_str sample_runtime (VStr label) = inr s
    /\ status {| id := 1; name := "Student council"; description := "Spring term";
                 startTime := 1714521600; endTime := 1714608000; isActive := true;
                 creator := "0xA11CE"; totalVotes := 0; candidateCount := 0;
                 status := Some "Active" |}
       = Some s.
Proof.
  apply (get_election_status_is_ledger_label
           sample_runtime (Some (sample_ledger 2 (Returns sample_results_data))) 1).
  reflexivity.
Defined.

Lemma get_election_agrees_with_results_witness :
  exists r,
    get_election_results sample_runtime
                         (Some (sample_ledger 2 (Returns sample_results_data)))
                         1714564800 1
    = Ok r
    /\ election r
       = without_status
           {| id := 1; name := "Student council"; description := "Spring term";
              startTime := 1714521600; endTime := 1714608000; isActive := true;
              creator := "0xA11CE"; totalVotes := 0; candidateCount := 0;
              status := Some "Active" |}.
Proof.
  apply (get_election_agrees_with_results
           sample_runtime (sample_ledger 2 (Returns sample_results_data)) 1714564800 1 2).
  - reflexivity.
  - lia.
  - reflexivity.
Defined.

Lemma get_candidates_all_or_nothing_witness :
  get_candidates sample_runtime (Some (sample_voting false)) 1 = Ok sample_candidates.
Proof.
  destruct (get_candidates_all_or_nothing
              sample_runtime (sample_voting false) 1 sample_results_data eq_refl)
    as [Hok _].
  apply Hok.
  repeat (apply Forall2_cons; [reflexivity |]). apply Forall2_nil.
Defined.

(** ** cast_vote and check_voter_eligibility *)

(** X22: [cast_vote] has no handler that lets its own [HTTPException]s
    through: the 403 of a voter who is not eligible and the 400 of one who
    has voted both reach the caller as a 500 whose detail is the text of
    the refused exception. *)
Theorem cast_vote_refusals_become_500
        (w3 : Web3) (c : VotingContract) (vote : VoteRequest) (sender_address : string)
        (refusal : exn) :
  to_checksum_address w3 (vr_senderAddress vote) = Returns sender_address ->
  (isVoterEligible c (vr_electionId vote) sender_address = Returns false
   /\ refusal = HTTPException 403 "You are not eligible to vote in this election")
  \/ (isVoterEligible c (vr_electionId vote) sender_address = Returns true
      /\ hasVoterVoted c (vr_electionId vote) sender_address = Returns true
      /\ refusal = HTTPException 400 "You have already voted in this election") ->
  cast_vote w3 (Some c) vote = Raise (HTTPException 500 (str_exn refusal)).
Proof.
  intros Hchk H. unfold cast_vote. rewrite Hchk. cbn [run bind functions].
  destruct H as [(He & ->) | (He & Hv & ->)]; rewrite He; cbn [run bind negb].
  - reflexivity.
  - rewrite Hv. reflexivity.
Qed.

Lemma cast_vote_refusals_become_500_witness :
  cast_vote sample_w3 (Some (sample_voting false))
            {| vr_electionId := 1; vr_candidateId := 2; vr_senderAddress := "0xE4E" |}
  = Raise (HTTPException 500 "403: You are not eligible to vote in this election").
Proof.
  apply (cast_vote_refusals_become_500
           sample_w3 (sample_voting false)
           {| vr_electionId := 1; vr_candidateId := 2; vr_senderAddress := "0xE4E" |}
           "0xE4E"
           (HTTPException 403 "You are not eligible to vote in this election")).
  - reflexivity.
  - left. split; reflexivity.
Defined.

(** X23: [cast_vote] prepares a transaction only for a voter the ledger
    reports eligible and not yet voted, that is, only when
    [check_voter_eligibility] at the same moment answers canVote = true;
    what it returns is the transaction built for that voter's vote with the
    nonce read for the sender. *)
Theorem cast_vote_needs_eligibility
        (w3 : Web3) (contract : option VotingContract) (vote : VoteRequest) (j : json) :
  cast_vote w3 contract vote = Ok j ->
  exists c sender_address nonce transaction,
    contract = Some c
    /\ to_checksum_address w3 (vr_senderAddress vote) = Returns sender_address
    /\ isVoterEligible c (vr_electionId vote) sender_address = Returns true
    /\ hasVoterVoted c (vr_electionId vote) sender_address = Returns false
    /\ get_transaction_count w3 sender_address = Returns nonce
    /\ build_vote c (vr_electionId vote) (vr_candidateId vote)
                  (tx_params sender_address nonce) = Returns transaction
    /\ j = prepared transaction "Vote transaction prepared successfully"
    /\ check_voter_eligibility w3 contract (vr_electionId vote) (vr_senderAddress vote)
       = Ok (JDict [("eligible", JBool true); ("hasVoted", JBool false);
                    ("canVote", JBool true)]).
Proof.
  unfold cast_vote.
  destruct (to_checksum_address w3 (vr_senderAddress vote)) as [sender_address | text]
    eqn:Hchk; cbn [run bind wrap_500]; [| discriminate].
  destruct contract as [c |]; cbn [functions bind wrap_500]; [| discriminate].
  destruct (isVoterEligible c (vr_electionId vote) sender_address) as [[|] | text]
    eqn:He; cbn [run bind negb wrap_500]; try discriminate.
  destruct (hasVoterVoted c (vr_electionId vote) sender_address) as [[|] | text]
    eqn:Hv; cbn [run bind wrap_500]; try discriminate.
  destruct (get_transaction_count w3 sender_address) as [nonce | text]
    eqn:Hn; cbn [run bind wrap_500]; [| discriminate].
  destruct (build_vote c (vr_electionId vote) (vr_candidateId vote)
                       (tx_params sender_address nonce)) as [transaction | text]
    eqn:Hb; cbn [run bind wrap_500]; [| discriminate].
  intro H. injection H as <-.
  exists c, sender_address, nonce, transaction.
  repeat (split; [assumption || reflexivity |]).
  unfold check_voter_eligibility. rewrite Hchk. cbn [run bind functions].
  rewrite He, Hv. reflexivity.
Qed.

Lemma cast_vote_needs_eligibility_witness :
  exists c sender_address nonce transaction,
    Some (sample_voting false) = Some c
    /\ to_checksum_address sample_w3 "0xB0B" = Returns sender_address
    /\ isVoterEligible c 1 sender_address = Returns true
    /\ hasVoterVoted c 1 sender_address = Returns false
    /\ get_transaction_count sample_w3 sender_address = Returns nonce
    /\ build_vote c 1 2 (tx_params sender_address nonce) = Returns transaction
    /\ JDict [("transaction",
               JDict [("to", JStr "0xC0DE"); ("from", JStr "0xB0B"); ("nonce", JInt 7);
                      ("gas", JInt 3000000); ("gasPrice", JInt 20000000000)]);
              ("message", JStr "Vote transaction prepared successfully")]
       = prepared transaction "Vote transaction prepared successfully"
    /\ check_voter_eligibility sample_w3 (Some (sample_voting false)) 1 "0xB0B"
       = Ok (JDict [("eligible", JBool true); ("hasVoted", JBool false);
                    ("canVote", JBool true)]).
Proof.
  apply (cast_vote_needs_eligibility
           sample_w3 (Some (sample_voting false))
           {| vr_electionId := 1; vr_candidateId := 2; vr_senderAddress := "0xB0B" |}).
  reflexivity.
Defined.

(** ** The prepared transaction *)

Lemma assoc_get_del_same (k : string) (fields : list (string * json)) :
  assoc_get k (assoc_del k fields) = None.
Proof.
  unfold assoc_del. induction fields as [| [k0 v0] fields IH]; simpl; [reflexivity |].
  destruct (String.eqb_spec k0 k) as [-> | Hne]; simpl; [exact IH |].
  destruct (String.eqb_spec k k0); [congruence | exact IH].
Qed.

Lemma assoc_get_del_other (k k' : string) (fields : list (string * json)) :
  k' <> k -> assoc_get k' (assoc_del k fields) = assoc_get k' fields.
Proof.
  intro Hne. unfold assoc_del.
  induction fields as [| [k0 v0] fields IH]; simpl; [reflexivity |].
  destruct (String.eqb_spec k0 k) as [-> | Hk]; simpl.
  - destruct (String.eqb_spec k' k); [congruence | exact IH].
  - now rewrite IH.
Qed.

Lemma assoc_mem_get (k : string) (fields : list (string * json)) :
  assoc_mem k fields = false -> assoc_get k fields = None.
Proof.
  unfold assoc_mem. induction fields as [| [k0 v0] fields IH]; simpl; [reflexivity |].
  intro H. apply orb_false_iff in H. destruct H as [Hk Hrest].
  rewrite String.eqb_sym, Hk. apply IH, Hrest.
Qed.

(** X24: the dict an endpoint returns for a prepared transaction never has
    a [chainId] in its transaction, whether or not the built one had it;
    every other field of the built transaction is passed on unchanged, and
    the message is the endpoint's. *)
Theorem prepared_transaction_has_no_chain_id
        (transaction : list (string * json)) (message k : string) :
  k <> "chainId" ->
  json_get2 "transaction" "chainId" (prepared transaction message) = None
  /\ json_get2 "transaction" k (prepared transaction message) = assoc_get k transaction
  /\ json_get "message" (prepared transaction message) = Some (JStr message).
Proof.
  intro Hk. unfold prepared, json_get2, strip_chain_id. cbn [json_get assoc_get String.eqb
    Ascii.eqb Bool.eqb].
  destruct (assoc_mem "chainId" transaction) eqn:Hmem; cbn [json_get].
  - split; [apply assoc_get_del_same |]. split; [| reflexivity].
    apply assoc_get_del_other, Hk.
  - split; [apply assoc_mem_get, Hmem |]. split; reflexivity.
Qed.

Lemma prepared_transaction_has_no_chain_id_witness :
  json_get2 "transaction" "chainId"
            (prepared [("chainId", JInt 1337); ("to", JStr "0xC0DE"); ("nonce", JInt 7)]
                      "Transaction prepared successfully")
  = None
  /\ json_get2 "transaction" "nonce"
               (prepared [("chainId", JInt 1337); ("to", JStr "0xC0DE"); ("nonce", JInt 7)]
                         "Transaction prepared successfully")
     = assoc_get "nonce" [("chainId", JInt 1337); ("to", JStr "0xC0DE"); ("nonce", JInt 7)]
  /\ json_get "message"
              (prepared [("chainId", JInt 1337); ("to", JStr "0xC0DE"); ("nonce", JInt 7)]
                        "Transaction prepared successfully")
     = Some (JStr "Transaction prepared successfully").
Proof.
  apply (prepared_transaction_has_no_chain_id
           [("chainId", JInt 1337); ("to", JStr "0xC0DE"); ("nonce", JInt 7)]
           "Transaction prepared successfully" "nonce").
  discriminate.
Defined.

(** ** create_election and add_candidate *)

(** X25: a sender the ledger does not report as admin is refused by
    [create_election] with its 403, which the [except HTTPException: raise]
    clause lets through, and by [add_candidate] with a 500 that wraps its
    403, because that endpoint has no such clause. *)
Theorem non_admin_refusals
        (lower : string -> string) (w3 : Web3) (c : VotingContract)
        (election : ElectionCreate) (candidate : CandidateCreate)
        (election_sender candidate_sender : string) :
  to_checksum_address w3 (ec_senderAddress election) = Returns election_sender ->
  isAdmin c election_sender = Returns false ->
  to_checksum_address w3 (cc_senderAddress candidate) = Returns candidate_sender ->
  isAdmin c candidate_sender = Returns false ->
  create_election lower w3 (Some c) election
  = Raise (HTTPException 403 "Only admins can create elections")
  /\ add_candidate w3 (Some c) candidate
     = Raise (HTTPException 500 (str_exn (HTTPException 403 "Only admins can add candidates"))).
Proof.
  intros Hchk Hadmin Hchk' Hadmin'. split.
  - unfold create_election. rewrite Hchk. cbn [run bind]. rewrite Hadmin. reflexivity.
  - unfold add_candidate. rewrite Hchk'. cbn [run bind functions]. rewrite Hadmin'.
    reflexivity.
Qed.

Lemma non_admin_refusals_witness :
  create_election sample_lower sample_w3 (Some (sample_voting false))
                  {| ec_name := "Board"; ec_description := ""; ec_startTime := 1;
                     ec_endTime := 2; ec_senderAddress := "0xB0B" |}
  = Raise (HTTPException 403 "Only admins can create elections")
  /\ add_candidate sample_w3 (Some (sample_voting false))
                   {| cc_electionId := 1; cc_name := "Ada"; cc_party := "Blue";
                      cc_imageUrl := Some ""; cc_senderAddress := "0xB0B" |}
     = Raise (HTTPException 500 "403: Only admins can add candidates").
Proof.
  apply (non_admin_refusals
           sample_lower sample_w3 (sample_voting false)
           {| ec_name := "Board"; ec_description := ""; ec_startTime := 1;
              ec_endTime := 2; ec_senderAddress := "0xB0B" |}
           {| cc_electionId := 1; cc_name := "Ada"; cc_party := "Blue";
              cc_imageUrl := Some ""; cc_senderAddress := "0xB0B" |}
           "0xB0B" "0xB0B").
  - reflexivity.
  - reflexivity.
  - reflexivity.
  - reflexivity.
Defined.

(** X26: when the [isAdmin] call itself fails, [create_election] decides by
    the node's accounts: the sender is taken for an admin exactly when the
    node has accounts and the sender equals the first of them up to
    [lower]; otherwise the answer is the 403. *)
Theorem create_election_admin_fallback
        (lower : string -> string) (w3 : Web3) (c : VotingContract)
        (election : ElectionCreate) (sender_address text : string)
        (accs : list string) (nonce : Z) (transaction : list (string * json)) :
  to_checksum_address w3 (ec_senderAddress election) = Returns sender_address ->
  isAdmin c sender_address = Fails text ->
  accounts w3 = Returns accs ->
  get_transaction_count w3 sender_address = Returns nonce ->
  build_createElection c (ec_name election) (ec_description election)
                       (ec_startTime election) (ec_endTime election)
                       (tx_params sender_address nonce) = Returns transaction ->
  create_election lower w3 (Some c) election
  = if match accs with
       | [] => false
       | first :: _ => String.eqb (lower sender_address) (lower first)
       end
    then Ok (prepared transaction "Transaction prepared successfully")
    else Raise (HTTPException 403 "Only admins can create elections").
Proof.
  intros Hchk Hadmin Haccs Hnonce Hbuild.
  unfold create_election, is_first_account.
  rewrite Hchk. cbn [run bind]. rewrite Hadmin, Haccs. cbn [run bind].
  destruct accs as [| first more]; cbn [bind negb wrap_500_keep_http]; [reflexivity |].
  destruct (String.eqb (lower sender_address) (lower first));
    cbn [negb wrap_500_keep_http]; [| reflexivity].
  rewrite Hnonce. cbn [run bind]. rewrite Hbuild. reflexivity.
Qed.

Lemma create_election_admin_fallback_witness :
  create_election sample_lower sample_w3 (Some sample_voting_admin_down)
                  {| ec_name := "Board"; ec_description := ""; ec_startTime := 1;
                     ec_endTime := 2; ec_senderAddress := "0xa11ce" |}
  = Ok (JDict [("transaction",
                JDict [("to", JStr "0xC0DE"); ("from", JStr "0xa11ce"); ("nonce", JInt 7);
                       ("gas", JInt 3000000); ("gasPrice", JInt 20000000000)]);
               ("message", JStr "Transaction prepared successfully")]).
Proof.
  apply (create_election_admin_fallback
           sample_lower sample_w3 sample_voting_admin_down
           {| ec_name := "Board"; ec_description := ""; ec_startTime := 1;
              ec_endTime := 2; ec_senderAddress := "0xa11ce" |}
           "0xa11ce" revert_error ["0xA11CE"] 7
           [("chainId", JInt 1337); ("to", JStr "0xC0DE"); ("from", JStr "0xa11ce");
            ("nonce", JInt 7); ("gas", JInt 3000000); ("gasPrice", JInt 20000000000)]).
  - reflexivity.
  - reflexivity.
  - reflexivity.
  - reflexivity.
  - reflexivity.
Defined.

(** ** login and verify_signature *)

(** X27: a [login] that returns has verified the signature against the
    checksummed address it reports, and reports [authenticated = True]. *)
Theorem login_returns_verified
        (lower : string -> string) (w3 : Web3) (contract : option VotingContract)
        (request : LoginRequest) (response : LoginResponse) :
  login lower w3 contract request = Ok response ->
  authenticated response = true
  /\ to_checksum_address w3 (lr_address request) = Returns (resp_address response)
  /\ verify_signature lower w3 (resp_address response) (lr_message request)
                      (lr_signature request) = true.
Proof.
  unfold login.
  destruct (to_checksum_address w3 (lr_address request)) as [address | text];
    cbn [run bind]; [| discriminate].
  destruct (verify_signature lower w3 address (lr_message request) (lr_signature request))
    eqn:Hver; cbn [negb]; [| discriminate].
  match goal with
  | |- context [bind ?m _] => destruct m as [b | e]; cbn [bind]
  end.
  - intro H. injection H as <-. auto.
  - destruct e; discriminate.
Qed.

Lemma login_returns_verified_witness :
  authenticated {| resp_address := "0xB0B"; resp_isAdmin := false; authenticated := true |}
  = true
  /\ to_checksum_address sample_w3 "0xB0B" = Returns "0xB0B"
  /\ verify_signature sample_lower sample_w3 "0xB0B" "Sign in" "deadbeef" = true.
Proof.
  apply (login_returns_verified
           sample_lower sample_w3 (Some (sample_voting false))
           {| lr_address := "0xB0B"; lr_signature := "deadbeef"; lr_message := "Sign in" |}
           {| resp_address := "0xB0B"; resp_isAdmin := false; authenticated := true |}).
  reflexivity.
Defined.

(** X28: a signature from which no address can be recovered, or one that
    recovers another address, makes [login] answer 401 "Invalid signature",
    with or without a contract: the recovery error does not become a
    500. *)
Theorem login_rejects_bad_signature
        (lower : string -> string) (w3 : Web3) (contract : option VotingContract)
        (request : LoginRequest) (address : string) :
  to_checksum_address w3 (lr_address request) = Returns address ->
  (exists text,
      recover_message w3 (lr_message request) (signature_hex (lr_signature request))
      = Fails text)
  \/ (exists recovered,
         recover_message w3 (lr_message request) (signature_hex (lr_signature request))
         = Returns recovered
         /\ lower recovered <> lower address) ->
  login lower w3 contract request = Raise (HTTPException 401 "Invalid signature").
Proof.
  intros Hchk H. unfold login. rewrite Hchk. cbn [run bind].
  assert (Hver : verify_signature lower w3 address (lr_message request)
                                  (lr_signature request) = false).
  { unfold verify_signature. destruct H as [(text & ->) | (recovered & -> & Hne)];
      [reflexivity |].
    now apply String.eqb_neq. }
  now rewrite Hver.
Qed.

Lemma login_rejects_bad_signature_witness :
  login sample_lower sample_w3 (Some (sample_voting false))
        {| lr_address := "0xB0B"; lr_signature := "0x1234"; lr_message := "Sign in" |}
  = Raise (HTTPException 401 "Invalid signature").
Proof.
  apply (login_rejects_bad_signature
           sample_lower sample_w3 (Some (sample_voting false))
           {| lr_address := "0xB0B"; lr_signature := "0x1234"; lr_message := "Sign in" |}
           "0xB0B").
  - reflexivity.
  - left. exists "Unexpected recoverable signature length". reflexivity.
Defined.

Lemma substring_all (s : string) : String.substring 0 (String.length s) s = s.
Proof. induction s as [| a s IH]; simpl; [reflexivity | now rewrite IH]. Qed.

Lemma signature_hex_prefixed (s : string) :
  signature_hex ("0x" ++ s) = ("0x" ++ s)%string.
Proof.
  unfold signature_hex. cbn [append String.prefix].
  destruct (Ascii.ascii_dec "0" "0") as [_ | Hne]; [| congruence].
  destruct (Ascii.ascii_dec "x" "x") as [_ | Hne]; [| congruence].
  cbn [String.length Nat.sub String.substring]. rewrite Nat.sub_0_r, substring_all.
  now destruct s.
Qed.

(** X29: [verify_signature] takes a signature with or without its "0x":
    for a signature that does not start with "0x", prefixing it changes
    neither the hex string handed to the recovery nor the verdict. *)
Theorem verify_signature_ignores_0x
        (lower : string -> string) (w3 : Web3) (address message signature : string) :
  String.prefix "0x" signature = false ->
  signature_hex ("0x" ++ signature) = signature_hex signature
  /\ verify_signature lower w3 address message ("0x" ++ signature)
     = verify_signature lower w3 address message signature.
Proof.
  intro Hpre.
  assert (Hhex : signature_hex ("0x" ++ signature) = signature_hex signature).
  { rewrite signature_hex_prefixed. unfold signature_hex. now rewrite Hpre. }
  split; [exact Hhex |]. unfold verify_signature. now rewrite Hhex.
Qed.

Lemma verify_signature_ignores_0x_witness :
  signature_hex ("0x" ++ "deadbeef") = signature_hex "deadbeef"
  /\ verify_signature sample_lower sample_w3 "0xB0B" "Sign in" ("0x" ++ "deadbeef")
     = verify_signature sample_lower sample_w3 "0xB0B" "Sign in" "deadbeef".
Proof.
  apply (verify_signature_ignores_0x sample_lower sample_w3 "0xB0B" "Sign in" "deadbeef").
  reflexivity.
Defined.
